(** * cliseo: the site-compatibility endpoint ([api/app.py])

    A shallow embedding of [detect_framework] and [check_site] and the
    properties of the framework / site-builder classifier.

    Modelling conventions.
    - A Python [str] is a [string]; the text handled by the endpoint is
      taken to be ASCII, so [str.lower] is the ASCII lower-casing and
      [str.strip] removes the ASCII white space Python removes.
    - A Python [dict] whose iteration order is observed is an association
      list in insertion order; assigning to a key that is present keeps its
      position.
    - A raised exception is the [Raise] branch of [outcome]; the [try] /
      [except] blocks of the source are matches on it.
    - The network and the HTML parser are the two fields of [world]; the
      GET requests a call performs are returned as a trace.
    - The classifier is given twice: in [Classifier] the [frameworks]
      dictionary is a value handed from one scan to the next, in [Store]
      it is an object changed in place in a store that outlives the call;
      [classify_runs] shows that the two agree. *)

From Stdlib Require Import Bool Arith List Ascii String ZArith Lia.
Import ListNotations.
Open Scope list_scope.
Open Scope string_scope.
Set Warnings "-register-all".

(** ** Python strings *)

Module PyStr.

(** The one-character string holding a double quote. *)
Definition dq : string := String (ascii_of_nat 34) EmptyString.

Definition is_upper (c : ascii) : bool :=
  ((65 <=? nat_of_ascii c) && (nat_of_ascii c <=? 90))%nat.

Definition lower_ascii (c : ascii) : ascii :=
  if is_upper c then ascii_of_nat (nat_of_ascii c + 32) else c.

(** [s.lower()] *)
Fixpoint lower (s : string) : string :=
  match s with
  | EmptyString => EmptyString
  | String c s' => String (lower_ascii c) (lower s')
  end.

(** [s.startswith(p)] *)
Fixpoint startswith (p s : string) : bool :=
  match p, s with
  | EmptyString, _ => true
  | String _ _, EmptyString => false
  | String a p', String b s' => Ascii.eqb a b && startswith p' s'
  end.

(** [p in s] for two strings: [p] occurs in [s] as a substring. *)
Fixpoint contains (p s : string) : bool :=
  startswith p s ||
  match s with
  | EmptyString => false
  | String _ s' => contains p s'
  end.

(** The characters [str.strip] removes, within ASCII. *)
Definition is_space (c : ascii) : bool :=
  let n := nat_of_ascii c in
  (((9 <=? n) && (n <=? 13)) || ((28 <=? n) && (n <=? 32)))%nat.

Fixpoint lstrip (s : string) : string :=
  match s with
  | EmptyString => EmptyString
  | String c s' => if is_space c then lstrip s' else s
  end.

Fixpoint rstrip (s : string) : string :=
  match s with
  | EmptyString => EmptyString
  | String c s' =>
      match rstrip s' with
      | EmptyString => if is_space c then EmptyString else String c EmptyString
      | r => String c r
      end
  end.

(** [s.strip()] *)
Definition strip (s : string) : string := rstrip (lstrip s).

(** [sep.join(l)] *)
Fixpoint join (sep : string) (l : list string) : string :=
  match l with
  | [] => EmptyString
  | [x] => x
  | x :: l' => x ++ sep ++ join sep l'
  end.

(** Truth value of a string: [bool(s)]. *)
Definition nonempty (s : string) : bool :=
  match s with EmptyString => false | String _ _ => true end.

End PyStr.

Import PyStr.

(** ** Exceptions *)

(** The classes [requests] raises, as far as the [except] clauses of
    [detect_framework] tell them apart.  [ConnectTimeout] derives from both
    [ConnectionError] and [Timeout]; [SSLError] and [ProxyError] derive
    from [ConnectionError]; all derive from [RequestException]. *)
Inductive requests_class : Type :=
| ConnectTimeout
| ReadTimeout
| Timeout
| SSLError
| ProxyError
| ConnectionError
| HTTPError
| RequestException.

(** An exception: what the handlers look at is its class and [str(e)]. *)
Inductive exn : Type :=
| Requests (c : requests_class) (msg : string)
| KeyError (key : string)
| TypeError (msg : string)
| OtherException (msg : string).

Definition is_Timeout (c : requests_class) : bool :=
  match c with ConnectTimeout | ReadTimeout | Timeout => true | _ => false end.

Definition is_SSLError (c : requests_class) : bool :=
  match c with SSLError => true | _ => false end.

Definition is_ConnectionError (c : requests_class) : bool :=
  match c with
  | ConnectTimeout | SSLError | ProxyError | ConnectionError => true
  | _ => false
  end.

Definition is_HTTPError (c : requests_class) : bool :=
  match c with HTTPError => true | _ => false end.

(** [str(e)] *)
Definition str_exn (e : exn) : string :=
  match e with
  | Requests _ msg => msg
  | KeyError key => "'" ++ key ++ "'"
  | TypeError msg => msg
  | OtherException msg => msg
  end.

Inductive outcome (A : Type) : Type :=
| Ret (a : A)
| Raise (e : exn).
Arguments Ret {A} a.
Arguments Raise {A} e.

Definition bind {A B : Type} (m : outcome A) (k : A -> outcome B) : outcome B :=
  match m with
  | Ret a => k a
  | Raise e => Raise e
  end.

Notation "x <- m ;; k" := (bind m (fun x => k))
  (at level 61, m at next level, right associativity).

(** ** Values: JSON documents and the dictionaries the handlers return *)

(** A decoded JSON value.  Of a number the handler only asks whether it
    is zero, so integers stand for all numbers; an object keeps one
    binding per key. *)
Inductive json : Type :=
| JNull
| JBool (b : bool)
| JNum (n : Z)
| JStr (s : string)
| JArr (l : list json)
| JObj (fields : list (string * json)).

(** An insertion-ordered dictionary with string keys. *)
Section Dict.
Context {V : Type}.

Definition dict := list (string * V).

(** [k in d] *)
Fixpoint dict_mem (k : string) (d : dict) : bool :=
  match d with
  | [] => false
  | (k', _) :: d' => String.eqb k k' || dict_mem k d'
  end.

(** [d.get(k)] *)
Fixpoint dict_find (k : string) (d : dict) : option V :=
  match d with
  | [] => None
  | (k', v) :: d' => if String.eqb k k' then Some v else dict_find k d'
  end.

(** [d[k]], which raises [KeyError] on a missing key. *)
Definition dict_get (k : string) (d : dict) : outcome V :=
  match dict_find k d with
  | Some v => Ret v
  | None => Raise (KeyError k)
  end.

(** [d[k] = v]: in place when [k] is present, appended otherwise. *)
Fixpoint dict_set (k : string) (v : V) (d : dict) : dict :=
  match d with
  | [] => [(k, v)]
  | (k', v') :: d' =>
      if String.eqb k k' then (k', v) :: d' else (k', v') :: dict_set k v d'
  end.

(** [d.items()] *)
Definition items (d : dict) : list (string * V) := d.
End Dict.
Arguments dict V : clear implicits.

(** The dictionary literals [detect_framework] and [check_site] return. *)
Definition failure (msg : string) : json :=
  JObj [("compatible", JBool false); ("error", JStr msg)].

Definition success (names : list string) : json :=
  JObj [("compatible", JBool true); ("frameworks", JArr (map JStr names))].

(** Reading a returned dictionary back. *)
Definition compatible_of (r : json) : option bool :=
  match r with
  | JObj fields =>
      match dict_find "compatible" fields with
      | Some (JBool b) => Some b
      | _ => None
      end
  | _ => None
  end.

Definition error_of (r : json) : option string :=
  match r with
  | JObj fields =>
      match dict_find "error" fields with
      | Some (JStr s) => Some s
      | _ => None
      end
  | _ => None
  end.

Fixpoint strings_of (l : list json) : option (list string) :=
  match l with
  | [] => Some []
  | JStr s :: l' => option_map (cons s) (strings_of l')
  | _ => None
  end.

Definition frameworks_of (r : json) : option (list string) :=
  match r with
  | JObj fields =>
      match dict_find "frameworks" fields with
      | Some (JArr l) => strings_of l
      | _ => None
      end
  | _ => None
  end.

(** ** The parsed page *)

(** A tag, as far as the code reads it: its attributes. *)
Definition Tag := dict string.

(** [tag.get(key, default)] *)
Definition tag_get (t : Tag) (key default : string) : string :=
  match dict_find key t with
  | Some v => v
  | None => default
  end.

(** What [detect_framework] reads from the [BeautifulSoup] object:
    [soup.find_all('meta')], [soup.find_all('script')] and [str(soup)]. *)
Record Soup : Type := mkSoup {
  find_all_meta : list Tag;
  find_all_script : list Tag;
  str_soup : string
}.

(** ** [detect_framework]: the classifier (source lines 68-155) *)

Module Classifier.

Definition flags := dict bool.

(** The initial [frameworks] dictionary. *)
Definition initial : flags :=
  [("React", false); ("Vue", false); ("Angular", false); ("Next.js", false);
   ("Wix", false); ("Squarespace", false); ("Shopify", false);
   ("Webflow", false)].

(** The [if] / [elif] chain run on the lower-cased [content] of a meta
    tag and on the lower-cased [src] of a script tag. *)
Definition scan_value (v : string) (frameworks : flags) : flags :=
  if contains "react" v then dict_set "React" true frameworks
  else if contains "angular" v then dict_set "Angular" true frameworks
  else if contains "next" v then dict_set "Next.js" true frameworks
  else frameworks.

Definition meta_content (meta : Tag) : string :=
  lower (tag_get meta "content" EmptyString).

Definition script_src (script : Tag) : string :=
  lower (tag_get script "src" EmptyString).

(** [for meta in soup.find_all('meta'): ...] *)
Definition scan_metas (metas : list Tag) (frameworks : flags) : flags :=
  fold_left (fun fw meta => scan_value (meta_content meta) fw) metas frameworks.

(** [for script in soup.find_all('script'): ...] *)
Definition scan_scripts (scripts : list Tag) (frameworks : flags) : flags :=
  fold_left (fun fw script => scan_value (script_src script) fw) scripts frameworks.

(** [page_source = str(soup).lower()] *)
Definition page_source (soup : Soup) : string := lower (str_soup soup).

(** The three independent [if]s on the page source. *)
Definition scan_markers (page : string) (frameworks : flags) : flags :=
  let fw1 :=
    if contains "data-reactroot" page || contains "react-root" page
    then dict_set "React" true frameworks else frameworks in
  let fw2 :=
    if contains "ng-" page || contains "angular" page
    then dict_set "Angular" true fw1 else fw1 in
  if contains "__next" page then dict_set "Next.js" true fw2 else fw2.

(** The generator strings of the builder checks, written with their
    quotes: [content="Squarespace"] and so on. *)
Definition generator (name : string) : string :=
  "content=" ++ dq ++ name ++ dq.

(** The four independent [if]s on the builder signatures. *)
Definition scan_builders (url page : string) (frameworks : flags) : flags :=
  let fw1 :=
    if contains "wixsite.com" url || contains "static.parastorage.com" page
       || contains "wix.com" page
    then dict_set "Wix" true frameworks else frameworks in
  let fw2 :=
    if contains "squarespace.com" page
       || contains (generator "Squarespace") page
    then dict_set "Squarespace" true fw1 else fw1 in
  let fw3 :=
    if contains "cdn.shopify.com" page || contains (generator "Shopify") page
       || contains "shopify" page
    then dict_set "Shopify" true fw2 else fw2 in
  if contains "webflow.com" page || contains (generator "Webflow") page
  then dict_set "Webflow" true fw3 else fw3.

Definition site_builders : list string :=
  ["Wix"; "Squarespace"; "Shopify"; "Webflow"].

(** [[fw for fw in names if frameworks[fw]]] *)
Fixpoint select (names : list string) (frameworks : flags)
  : outcome (list string) :=
  match names with
  | [] => Ret []
  | fw :: names' =>
      b <- dict_get fw frameworks ;;
      rest <- select names' frameworks ;;
      Ret (if b : bool then fw :: rest else rest)
  end.

(** [[fw for fw, detected in frameworks.items() if detected]] *)
Definition detected_of (frameworks : flags) : list string :=
  map fst (filter snd (items frameworks)).

(** The flags once the four scans have run. *)
Definition scan (url : string) (soup : Soup) : flags :=
  let fw1 := scan_metas (find_all_meta soup) initial in
  let fw2 := scan_scripts (find_all_script soup) fw1 in
  let fw3 := scan_markers (page_source soup) fw2 in
  scan_builders url (page_source soup) fw3.

(** The body of the inner [try]. *)
Definition classify_body (url : string) (soup : Soup) : outcome json :=
  let frameworks := scan url soup in
  detected_builders <- select site_builders frameworks ;;
  match detected_builders with
  | _ :: _ =>
      Ret (failure ("Framework not supported: " ++ join ", " detected_builders))
  | [] =>
      let detected := detected_of frameworks in
      match detected with
      | _ :: _ => Ret (success detected)
      | [] => Ret (success ["Unknown"])
      end
  end.

(** The inner [try] with its [except Exception]. *)
Definition classify (url : string) (soup : Soup) : json :=
  match classify_body url soup with
  | Ret r => r
  | Raise e => failure ("Error parsing website content: " ++ str_exn e)
  end.

End Classifier.

(** ** The classifier with its dictionary in the store (source lines 68-155)

    [frameworks] is an object: line 69 creates it and the assignments of
    lines 85-125 change it in place.  In [Classifier] the dictionary is a
    value handed from one scan to the next.  Here the objects of the
    process live in a store that outlives the call, as the heap of the
    interpreter does: what a call leaves behind is still there when the
    next call runs, and a call reaches its dictionary through its
    address. *)

Module Store.

Definition addr := nat.

(** The dictionaries created so far, by address. *)
Definition heap := list (dict bool).

(** A computation that reads and changes the store and may raise; the
    changes made before an exception stay. *)
Definition prog (A : Type) : Type := heap -> outcome A * heap.

Definition ret {A : Type} (a : A) : prog A := fun h => (Ret a, h).

Definition pbind {A B : Type} (m : prog A) (k : A -> prog B) : prog B :=
  fun h =>
    match m h with
    | (Ret a, h') => k a h'
    | (Raise e, h') => (Raise e, h')
    end.

Notation "x <~ m ;; k" := (pbind m (fun x => k))
  (at level 61, m at next level, right associativity).

Notation "m ;;; k" := (pbind m (fun _ => k))
  (at level 61, right associativity).

(** What reaching for an address that holds no object gives.  No call
    does so: see [classify_runs]. *)
Definition no_object {A : Type} : outcome A :=
  Raise (OtherException "no object at this address").

(** [{...}]: a new object, at an address that was not in use. *)
Definition alloc (d : dict bool) : prog addr :=
  fun h => (Ret (List.length h), (h ++ [d])%list).

Fixpoint update (a : addr) (f : dict bool -> dict bool) (h : heap) : heap :=
  match h, a with
  | [], _ => []
  | d :: h', O => f d :: h'
  | d :: h', S a' => d :: update a' f h'
  end.

(** [d[key]] *)
Definition load (a : addr) (key : string) : prog bool :=
  fun h =>
    match nth_error h a with
    | Some d => (dict_get key d, h)
    | None => (no_object, h)
    end.

(** [d[key] = v] *)
Definition store (a : addr) (key : string) (v : bool) : prog unit :=
  fun h =>
    match nth_error h a with
    | Some _ => (Ret tt, update a (dict_set key v) h)
    | None => (no_object, h)
    end.

(** [d.items()], read at once. *)
Definition load_items (a : addr) : prog (list (string * bool)) :=
  fun h =>
    match nth_error h a with
    | Some d => (Ret (items d), h)
    | None => (no_object, h)
    end.

(** [for x in l: body] *)
Fixpoint for_each {A : Type} (l : list A) (body : A -> prog unit) : prog unit :=
  match l with
  | [] => ret tt
  | x :: l' => body x ;;; for_each l' body
  end.

(** An [if] without [else]. *)
Definition when (b : bool) (m : prog unit) : prog unit :=
  if b then m else ret tt.

(** The [if] / [elif] chain of lines 84-91 and 97-104. *)
Definition scan_value (frameworks : addr) (v : string) : prog unit :=
  if contains "react" v then store frameworks "React" true
  else if contains "angular" v then store frameworks "Angular" true
  else if contains "next" v then store frameworks "Next.js" true
  else ret tt.

(** Lines 108-115. *)
Definition scan_markers (frameworks : addr) (page : string) : prog unit :=
  when (contains "data-reactroot" page || contains "react-root" page)
       (store frameworks "React" true) ;;;
  when (contains "ng-" page || contains "angular" page)
       (store frameworks "Angular" true) ;;;
  when (contains "__next" page) (store frameworks "Next.js" true).

(** Lines 118-125. *)
Definition scan_builders (frameworks : addr) (url page : string) : prog unit :=
  when (contains "wixsite.com" url || contains "static.parastorage.com" page
        || contains "wix.com" page)
       (store frameworks "Wix" true) ;;;
  when (contains "squarespace.com" page
        || contains (Classifier.generator "Squarespace") page)
       (store frameworks "Squarespace" true) ;;;
  when (contains "cdn.shopify.com" page
        || contains (Classifier.generator "Shopify") page
        || contains "shopify" page)
       (store frameworks "Shopify" true) ;;;
  when (contains "webflow.com" page
        || contains (Classifier.generator "Webflow") page)
       (store frameworks "Webflow" true).

(** [[fw for fw in names if frameworks[fw]]] *)
Fixpoint select (frameworks : addr) (names : list string)
  : prog (list string) :=
  match names with
  | [] => ret []
  | fw :: names' =>
      b <~ load frameworks fw ;;
      rest <~ select frameworks names' ;;
      ret (if b : bool then fw :: rest else rest)
  end.

(** The body of the inner [try] (lines 81-149). *)
Definition classify_body (frameworks : addr) (url : string) (soup : Soup)
  : prog json :=
  for_each (find_all_meta soup)
    (fun meta => scan_value frameworks (Classifier.meta_content meta)) ;;;
  for_each (find_all_script soup)
    (fun script => scan_value frameworks (Classifier.script_src script)) ;;;
  let page_source := Classifier.page_source soup in
  scan_markers frameworks page_source ;;;
  scan_builders frameworks url page_source ;;;
  detected_builders <~ select frameworks Classifier.site_builders ;;
  match detected_builders with
  | _ :: _ =>
      ret (failure ("Framework not supported: " ++ join ", " detected_builders))
  | [] =>
      pairs <~ load_items frameworks ;;
      let detected := map fst (filter snd pairs) in
      match detected with
      | _ :: _ => ret (success detected)
      | [] => ret (success ["Unknown"])
      end
  end.

(** [try: ... except Exception as e: ...] of lines 80 and 151-155. *)
Definition try_parsing (m : prog json) : prog json :=
  fun h =>
    match m h with
    | (Ret r, h') => (Ret r, h')
    | (Raise e, h') =>
        (Ret (failure ("Error parsing website content: " ++ str_exn e)), h')
    end.

(** Lines 68-155: the dictionary is created, then the inner [try] runs. *)
Definition classify (url : string) (soup : Soup) : prog json :=
  frameworks <~ alloc Classifier.initial ;;
  try_parsing (classify_body frameworks url soup).

(** Two calls, one after the other, in one process. *)
Definition classify_twice (url1 : string) (soup1 : Soup)
  (url2 : string) (soup2 : Soup) (h : heap) : outcome json * outcome json :=
  let '(r1, h1) := classify url1 soup1 h in
  let '(r2, _) := classify url2 soup2 h1 in
  (r1, r2).

End Store.

(** ** [detect_framework]: fetching and parsing (source lines 30-66, 157-161) *)

(** What the endpoint does to the outside: the GET requests it sends. *)
Inductive event : Type :=
| HttpGet (url : string).

(** The collaborators.  [requests_get url] stands for
    [requests.get(url, timeout=10)] followed by [raise_for_status()] and
    returns [response.text]; [BeautifulSoup text] stands for
    [BeautifulSoup(text, 'html.parser')]. *)
Record world : Type := mkWorld {
  requests_get : string -> outcome string;
  BeautifulSoup : string -> outcome Soup
}.

(** [if not url.startswith(('http://', 'https://')): url = 'https://' + url] *)
Definition add_scheme (url : string) : string :=
  if startswith "http://" url || startswith "https://" url
  then url else "https://" ++ url.

(** The [except] clauses after the request, in their order.  An exception
    that is not a [RequestException] leaves the inner [try]. *)
Definition on_request_error (e : exn) : outcome json :=
  match e with
  | Requests c msg =>
      if is_Timeout c then
        Ret (failure "Request timed out. Please check the URL and try again.")
      else if is_SSLError c then
        Ret (failure
          "SSL certificate verification failed. The site might not be secure.")
      else if is_ConnectionError c then
        Ret (failure
          "Could not connect to the website. Please check the URL and try again.")
      else if is_HTTPError c then
        Ret (failure ("HTTP Error: " ++ msg))
      else
        Ret (failure ("Error accessing the website: " ++ msg))
  | _ => Raise e
  end.

(** The body of the outer [try], [url] being the URL with its scheme. *)
Definition detect_body (w : world) (url : string) : outcome json :=
  match requests_get w url with
  | Raise e => on_request_error e
  | Ret text =>
      soup <- BeautifulSoup w text ;;
      Ret (Classifier.classify url soup)
  end.

Definition detect_framework (w : world) (url : string) : json * list event :=
  let url := add_scheme url in
  (match detect_body w url with
   | Ret r => r
   | Raise e => failure ("Unexpected error: " ++ str_exn e)
   end,
   [HttpGet url]).

(** ** [check_site]: the request handler (source lines 163-199) *)

(** [bool(data)] for a decoded JSON value. *)
Definition truthy (data : json) : bool :=
  match data with
  | JNull => false
  | JBool b => b
  | JNum n => negb (Z.eqb n 0)
  | JStr s => nonempty s
  | JArr l => match l with [] => false | _ :: _ => true end
  | JObj fields => match fields with [] => false | _ :: _ => true end
  end.

Definition is_str (v : json) (s : string) : bool :=
  match v with JStr s' => String.eqb s s' | _ => false end.

(** ['url' in data] *)
Definition has_url (data : json) : outcome bool :=
  match data with
  | JObj fields => Ret (dict_mem "url" fields)
  | JArr l => Ret (existsb (fun v => is_str v "url") l)
  | JStr s => Ret (contains "url" s)
  | JNum _ => Raise (TypeError "argument of type 'int' is not iterable")
  | JBool _ => Raise (TypeError "argument of type 'bool' is not iterable")
  | JNull => Raise (TypeError "argument of type 'NoneType' is not iterable")
  end.

(** [data['url']] *)
Definition url_of (data : json) : outcome json :=
  match data with
  | JObj fields => dict_get "url" fields
  | JArr _ =>
      Raise (TypeError "list indices must be integers or slices, not str")
  | JStr _ => Raise (TypeError "string indices must be integers")
  | JNum _ => Raise (TypeError "'int' object is not subscriptable")
  | JBool _ => Raise (TypeError "'bool' object is not subscriptable")
  | JNull => Raise (TypeError "'NoneType' object is not subscriptable")
  end.

(** A response of the handler: the JSON body and the status code. *)
Definition http_response : Type := json * nat.

(** The body of the handler's [try].  [body] is [request.get_json()]. *)
Definition check_site_body (w : world) (body : outcome json)
  : outcome (http_response * list event) :=
  data <- body ;;
  if negb (truthy data) then Ret (failure "No data provided", 400, [])
  else
    present <- has_url data ;;
    if negb present then Ret (failure "URL is required", 400, [])
    else
      v <- url_of data ;;
      match v with
      | JStr s =>
          let url := strip s in
          if negb (nonempty url) then Ret (failure "URL cannot be empty", 400, [])
          else
            let '(result, trace) := detect_framework w url in
            Ret (result, 200, trace)
      | _ => Ret (failure "URL must be a string", 400, [])
      end.

Definition check_site (w : world) (body : outcome json)
  : http_response * list event :=
  match check_site_body w body with
  | Ret r => r
  | Raise e => (failure ("Server error: " ++ str_exn e), 500, [])
  end.

(** ** The evidence, read off the conditions of the source *)

Module Evidence.
Import Classifier.

(** What one pass of the [if] / [elif] chain registers for a value. *)
Definition tag_react (v : string) : bool := contains "react" v.

Definition tag_angular (v : string) : bool :=
  negb (contains "react" v) && contains "angular" v.

Definition tag_next (v : string) : bool :=
  negb (contains "react" v) && negb (contains "angular" v)
  && contains "next" v.

(** The values the two loops go through, in their order. *)
Definition values (soup : Soup) : list string :=
  (map meta_content (find_all_meta soup)
   ++ map script_src (find_all_script soup))%list.

Definition react (soup : Soup) : bool :=
  existsb tag_react (values soup)
  || (contains "data-reactroot" (page_source soup)
      || contains "react-root" (page_source soup)).

Definition angular (soup : Soup) : bool :=
  existsb tag_angular (values soup)
  || (contains "ng-" (page_source soup)
      || contains "angular" (page_source soup)).

Definition next (soup : Soup) : bool :=
  existsb tag_next (values soup) || contains "__next" (page_source soup).

Definition wix (url : string) (soup : Soup) : bool :=
  contains "wixsite.com" url
  || contains "static.parastorage.com" (page_source soup)
  || contains "wix.com" (page_source soup).

Definition squarespace (soup : Soup) : bool :=
  contains "squarespace.com" (page_source soup)
  || contains (generator "Squarespace") (page_source soup).

Definition shopify (soup : Soup) : bool :=
  contains "cdn.shopify.com" (page_source soup)
  || contains (generator "Shopify") (page_source soup)
  || contains "shopify" (page_source soup).

Definition webflow (soup : Soup) : bool :=
  contains "webflow.com" (page_source soup)
  || contains (generator "Webflow") (page_source soup).

(** Does a signature of the builder [name] match? *)
Definition builder (url : string) (soup : Soup) (name : string) : bool :=
  if String.eqb name "Wix" then wix url soup
  else if String.eqb name "Squarespace" then squarespace soup
  else if String.eqb name "Shopify" then shopify soup
  else if String.eqb name "Webflow" then webflow soup
  else false.

(** Does a signature of the framework [name] match? *)
Definition framework (soup : Soup) (name : string) : bool :=
  if String.eqb name "React" then react soup
  else if String.eqb name "Angular" then angular soup
  else if String.eqb name "Next.js" then next soup
  else false.

Definition js_frameworks : list string := ["React"; "Angular"; "Next.js"].

Definition matched_builders (url : string) (soup : Soup) : list string :=
  filter (builder url soup) site_builders.

Definition matched_frameworks (soup : Soup) : list string :=
  filter (framework soup) js_frameworks.

(** Angular evidence outside the meta tags. *)
Definition angular_elsewhere (soup : Soup) : bool :=
  existsb tag_angular (map script_src (find_all_script soup))
  || (contains "ng-" (page_source soup)
      || contains "angular" (page_source soup)).

(** No evidence of any kind: no value of a meta or script tag holds one
    of the three words, the page source holds no marker of a framework
    or of a builder, the URL does not name a builder. *)
Definition none (url : string) (soup : Soup) : Prop :=
  (forall v, In v (values soup) ->
     contains "react" v = false /\ contains "angular" v = false
     /\ contains "next" v = false)
  /\ (forall marker,
        In marker ["data-reactroot"; "react-root"; "ng-"; "angular"; "__next";
                   "static.parastorage.com"; "wix.com"; "squarespace.com";
                   generator "Squarespace"; "cdn.shopify.com";
                   generator "Shopify"; "shopify"; "webflow.com";
                   generator "Webflow"] ->
        contains marker (page_source soup) = false)
  /\ contains "wixsite.com" url = false.

End Evidence.

(** [l] is [m] with some elements left out: the order is kept. *)
Inductive subseq {A : Type} : list A -> list A -> Prop :=
| subseq_nil : subseq [] []
| subseq_skip x l m : subseq l m -> subseq l (x :: m)
| subseq_keep x l m : subseq l m -> subseq (x :: l) (x :: m).

(** The flags dictionary, with its eight keys in their order. *)
Definition mk_flags (r a n w q s f : bool) : Classifier.flags :=
  [("React", r); ("Vue", false); ("Angular", a); ("Next.js", n);
   ("Wix", w); ("Squarespace", q); ("Shopify", s); ("Webflow", f)].

(** The malformed requests: no body, no [url] key, a [url] that is not a
    string, a [url] that is empty once stripped. *)
Inductive malformed : json -> Prop :=
| no_body : malformed JNull
| missing_url fields :
    dict_mem "url" fields = false -> malformed (JObj fields)
| url_not_str fields v :
    dict_find "url" fields = Some v -> (forall s, v <> JStr s) ->
    malformed (JObj fields)
| url_empty fields s :
    dict_find "url" fields = Some (JStr s) -> strip s = EmptyString ->
    malformed (JObj fields).

(** The page BeautifulSoup builds from the one-tag document
    [<meta content="react angular">]: one meta tag, no script tag, and
    the tag written back by [str(soup)]. *)
Definition react_angular_page : Soup :=
  mkSoup [[("content", "react angular")]] []
         ("<meta content=" ++ dq ++ "react angular" ++ dq ++ "/>").

(** The page of an empty document. *)
Definition empty_page : Soup := mkSoup [] [] EmptyString.

(** A page with React's root marker and nothing else. *)
Definition react_root_page : Soup :=
  mkSoup [] [] "<div data-reactroot></div>".

(** A React page served from Shopify's CDN. *)
Definition shopify_react_page : Soup :=
  mkSoup [[("content", "React")]] [[("src", "https://cdn.shopify.com/react.js")]]
         "<div data-reactroot><script src=https://cdn.shopify.com/react.js>".

(** A page built with Webflow that names Shopify. *)
Definition webflow_shopify_page : Soup :=
  mkSoup [] [] "<a href=https://webflow.com>Webflow</a> Shopify".

(** A world in which every request times out while reading. *)
Definition timeout_world : world :=
  mkWorld (fun _ => Raise (Requests ReadTimeout "Read timed out."))
          (fun _ => Ret empty_page).

(** A world in which every URL serves the page [soup]. *)
Definition serving (soup : Soup) : world :=
  mkWorld (fun _ => Ret EmptyString) (fun _ => Ret soup).

(** The request body [{"url": "example.com"}], decoded. *)
Definition example_request : json := JObj [("url", JStr "example.com")].

(** The message [detect_framework] gives for a [requests] exception, by
    the class of the exception. *)
Definition request_error_text (c : requests_class) (msg : string) : string :=
  match c with
  | ConnectTimeout | ReadTimeout | Timeout =>
      "Request timed out. Please check the URL and try again."
  | SSLError =>
      "SSL certificate verification failed. The site might not be secure."
  | ProxyError | ConnectionError =>
      "Could not connect to the website. Please check the URL and try again."
  | HTTPError => "HTTP Error: " ++ msg
  | RequestException => "Error accessing the website: " ++ msg
  end.

(** The strings the page source is searched for (source lines 108-124). *)
Definition page_markers : list string :=
  ["data-reactroot"; "react-root"; "ng-"; "angular"; "__next";
   "static.parastorage.com"; "wix.com"; "squarespace.com";
   Classifier.generator "Squarespace"; "cdn.shopify.com";
   Classifier.generator "Shopify"; "shopify"; "webflow.com";
   Classifier.generator "Webflow"].

(** The builder markers that can occur in a lower-cased page source. *)
Definition builder_markers : list string :=
  ["static.parastorage.com"; "wix.com"; "squarespace.com";
   "cdn.shopify.com"; "shopify"; "webflow.com"].

(** Two pages on which every search of the page source answers alike. *)
Definition same_markers (soup1 soup2 : Soup) : Prop :=
  forall marker, In marker page_markers ->
    contains marker (Classifier.page_source soup1)
    = contains marker (Classifier.page_source soup2).

(** The characters of a string. *)
Definition chars (s : string) : list ascii := list_ascii_of_string s.

(** A page written in capitals that loads a script from Shopify's CDN. *)
Definition capital_shopify_page : Soup :=
  mkSoup [] [] "<SCRIPT SRC=HTTPS://CDN.SHOPIFY.COM/S/APP.JS></SCRIPT>".

(** A page whose only trace of Squarespace is its generator tag. *)
Definition squarespace_generator_page : Soup :=
  mkSoup [[("name", "generator"); ("content", "Squarespace")]] []
         ("<meta name=" ++ dq ++ "generator" ++ dq ++ " content=" ++ dq
          ++ "Squarespace" ++ dq ++ "/>").

(** A React page whose only trace of Webflow is its generator tag. *)
Definition webflow_generator_react_page : Soup :=
  mkSoup [[("content", "Webflow"); ("name", "generator")]] []
         ("<meta content=" ++ dq ++ "Webflow" ++ dq ++ " name=" ++ dq
          ++ "generator" ++ dq ++ "/><div data-reactroot></div>").

(** A world in which the certificate of every site is rejected. *)
Definition ssl_world : world :=
  mkWorld (fun _ => Raise (Requests SSLError "certificate verify failed"))
          (fun _ => Ret empty_page).

(** A world in which the parser fails on every page. *)
Definition parser_failure_world : world :=
  mkWorld (fun _ => Ret EmptyString)
          (fun _ => Raise (OtherException "maximum recursion depth exceeded")).

(** Two pages with the same meta tags in another order, one of them
    twice. *)
Definition react_next_page : Soup :=
  mkSoup [[("content", "React app")]; [("content", "Next")]] []
         "<meta content=React app><meta content=Next>".

Definition next_react_react_page : Soup :=
  mkSoup [[("content", "next")]; [("content", "react app")];
          [("content", "REACT APP")]] []
         "<meta content=next><meta content=react app><meta content=REACT APP>".

(** The Shopify page inside a frame of further markup. *)
Definition framed_shopify_page : Soup :=
  mkSoup [] [[("src", "app.js")]]
         ("<html><body>" ++ str_soup shopify_react_page
          ++ "<script src=app.js></script></body></html>").

(** ** The Product Hunt scraper ([automation/producthunt.py]) *)

(** [s.replace(old, new)] for two one-character strings. *)
Fixpoint replace (old new : ascii) (s : string) : string :=
  match s with
  | EmptyString => EmptyString
  | String c s' =>
      String (if Ascii.eqb c old then new else c) (replace old new s')
  end.

(** [s.split(sep)] for a one-character separator. *)
Fixpoint split (sep : ascii) (s : string) : list string :=
  match s with
  | EmptyString => [EmptyString]
  | String c s' =>
      if Ascii.eqb c sep then EmptyString :: split sep s'
      else match split sep s' with
           | piece :: pieces => String c piece :: pieces
           | [] => [String c EmptyString]
           end
  end.

(** [s.split(sep)[-1]] *)
Definition last_piece (sep : ascii) (s : string) : string :=
  last (split sep s) EmptyString.

(** The two ways [get_top_products] builds the URL of a post: from the
    [href] of the link of a product section (line 97), or from the text
    of its button (line 107). *)
Definition product_url_of_href (href : string) : string :=
  "https://www.producthunt.com" ++ href.

Definition product_url_of_name (product_name : string) : string :=
  "https://www.producthunt.com/posts/"
  ++ replace " " "-" (lower product_name).

(** The collaborators of the scraper: [urlparse(url).netloc], which may
    raise, and the GET request to DuckDuckGo, which gives a status code
    and what [response.json()] gives. *)
Record search_world : Type := mkSearchWorld {
  urlparse_netloc : string -> outcome string;
  duckduckgo_get : string -> outcome (nat * outcome json)
}.

Definition skip_domains : list string :=
  ["producthunt.com"; "twitter.com"; "x.com"; "facebook.com";
   "linkedin.com"; "instagram.com"; "github.com"; "youtube.com";
   "medium.com"; "lu.ma"; "google.com"; "wikipedia.org"].

Definition skip_terms : list string :=
  ["search?"; "profile"; "/search/"; "/users/"].

(** [is_valid_product_url(url)], on a decoded JSON value.  On a value
    that is not a string [urlparse] raises and the bare [except] returns
    [False]. *)
Definition is_valid_product_url (w : search_world) (url : json) : bool :=
  if negb (truthy url) then false
  else
    match url with
    | JStr s =>
        match urlparse_netloc w s with
        | Ret netloc =>
            let domain := lower netloc in
            if existsb (fun skip => contains skip domain) skip_domains
            then false
            else if existsb (fun term => contains term (lower s)) skip_terms
            then false
            else true
        | Raise _ => false
        end
    | _ => false
    end.

Definition type_name (v : json) : string :=
  match v with
  | JNull => "NoneType"
  | JBool _ => "bool"
  | JNum _ => "int"
  | JStr _ => "str"
  | JArr _ => "list"
  | JObj _ => "dict"
  end.

(** [v.get(key, default)]: only a dictionary has the method. *)
Definition py_get (v : json) (key : string) (default : json) : outcome json :=
  match v with
  | JObj fields =>
      Ret (match dict_find key fields with Some x => x | None => default end)
  | _ =>
      Raise (OtherException
               ("'" ++ type_name v ++ "' object has no attribute 'get'"))
  end.

(** What [for x in v] goes through: the elements of a list, the
    characters of a string, the keys of a dictionary. *)
Definition py_iter (v : json) : outcome (list json) :=
  match v with
  | JArr l => Ret l
  | JStr s => Ret (map (fun c => JStr (String c EmptyString)) (chars s))
  | JObj fields => Ret (map (fun kv => JStr (fst kv)) fields)
  | _ => Raise (TypeError ("'" ++ type_name v ++ "' object is not iterable"))
  end.

(** The loop over the related topics (lines 174-177). *)
Fixpoint first_valid_topic (w : search_world) (topics : list json)
  : outcome (option json) :=
  match topics with
  | [] => Ret None
  | topic :: topics' =>
      url <- py_get topic "FirstURL" JNull ;;
      if truthy url && is_valid_product_url w url then Ret (Some url)
      else first_valid_topic w topics'
  end.

(** The search query and the URL of the request (lines 153-161). *)
Definition search_query (product_name : string) : string :=
  let clean_name := strip (replace "-" " " product_name) in
  "what is " ++ clean_name
  ++ " on product hunt -producthunt -twitter -facebook".

Definition search_url (product_name : string) : string :=
  "https://api.duckduckgo.com/?q=" ++ search_query product_name
  ++ "&format=json&no_html=1&no_redirect=1&kl=wt-wt".

(** The body of the [try] of [search_product_website]. *)
Definition search_body (w : search_world) (product_name : string)
  : outcome (option json) :=
  response <- duckduckgo_get w (search_url product_name) ;;
  let '(status_code, body) := response in
  if Nat.eqb status_code 200 then
    results <- body ;;
    abstract_url <- py_get results "AbstractURL" JNull ;;
    if truthy abstract_url && is_valid_product_url w abstract_url
    then Ret (Some abstract_url)
    else
      related <- py_get results "RelatedTopics" (JArr []) ;;
      topics <- py_iter related ;;
      found <- first_valid_topic w topics ;;
      match found with
      | Some url => Ret (Some url)
      | None =>
          redirect_url <- py_get results "Redirect" JNull ;;
          if truthy redirect_url && is_valid_product_url w redirect_url
          then Ret (Some redirect_url)
          else Ret None
      end
  else Ret None.

(** [search_product_website(product_name)]: [None] on any exception. *)
Definition search_product_website (w : search_world) (product_name : string)
  : option json :=
  match search_body w product_name with
  | Ret r => r
  | Raise _ => None
  end.

(** [get_product_website(product_post_url)], as first defined (lines
    190-207). *)
Definition get_product_website (w : search_world) (product_post_url : string)
  : option json :=
  let product_name := last_piece "/" product_post_url in
  match search_product_website w product_name with
  | Some website_url => if truthy website_url then Some website_url else None
  | None => None
  end.

(** A stand-in for [urlparse] on plain [https] URLs: the text between
    the scheme and the next slash. *)
Definition plain_netloc (url : string) : outcome string :=
  match split "/" url with
  | _ :: _ :: host :: _ => Ret host
  | _ => Ret EmptyString
  end.

(** An answer of DuckDuckGo whose abstract points to Product Hunt and
    whose second related topic points to the site of the product. *)
Definition sample_answer : json :=
  JObj [("AbstractURL", JStr "https://www.producthunt.com/posts/acme");
        ("RelatedTopics",
         JArr [JObj [("Text", JStr "Acme")];
               JObj [("FirstURL", JStr "https://acme.dev/")]]);
        ("Redirect", JStr EmptyString)].

Definition sample_search_world : search_world :=
  mkSearchWorld plain_netloc (fun _ => Ret (200, Ret sample_answer)).

(** ** Strings: substrings and joins *)

Lemma append_assoc (a b c : string) : (a ++ b) ++ c = a ++ (b ++ c).
Proof. induction a as [|x a IH]; simpl; [reflexivity | now rewrite IH]. Qed.

Lemma startswith_spec (p s : string) :
  startswith p s = true <-> exists t, s = p ++ t.
Proof.
  revert s; induction p as [|a p IH]; intros s; simpl.
  - split; [intros _; now exists s | reflexivity].
  - destruct s as [|b s].
    + split; [discriminate | intros [t Ht]; discriminate].
    + rewrite andb_true_iff, Ascii.eqb_eq, IH. split.
      * intros [-> [t ->]]. now exists t.
      * intros [t Ht]. injection Ht as -> ->. split; [reflexivity | now exists t].
Qed.

Lemma contains_spec (p s : string) :
  contains p s = true <-> exists a b, s = a ++ p ++ b.
Proof.
  induction s as [|c s IH].
  - simpl. rewrite orb_false_r, startswith_spec. split.
    + intros [t Ht]. now exists EmptyString, t.
    + intros [a [b H]]. destruct a; simpl in H; [now exists b | discriminate].
  - cbn [contains]. rewrite orb_true_iff, startswith_spec, IH. split.
    + intros [[t Ht] | [a [b H]]].
      * now exists EmptyString, t.
      * exists (String c a), b. simpl. now rewrite H.
    + intros [a [b H]]. destruct a as [|x a]; simpl in H.
      * left. now exists b.
      * right. injection H as _ H. now exists a, b.
Qed.

Lemma contains_in_app (p a b : string) : contains p (a ++ p ++ b) = true.
Proof. apply contains_spec. now exists a, b. Qed.

Lemma contains_app_r (p a s : string) :
  contains p s = true -> contains p (a ++ s) = true.
Proof.
  rewrite !contains_spec. intros [x [y ->]].
  exists (a ++ x), y. now rewrite append_assoc.
Qed.

Lemma contains_app_l (p s b : string) :
  contains p s = true -> contains p (s ++ b) = true.
Proof.
  rewrite !contains_spec. intros [x [y ->]].
  exists x, (y ++ b). now rewrite !append_assoc.
Qed.

Lemma contains_refl (p : string) : contains p p = true.
Proof. destruct p; simpl; [reflexivity |]. rewrite Ascii.eqb_refl. simpl.
  assert (H : forall q, startswith q q = true).
  { induction q; simpl; [reflexivity | now rewrite Ascii.eqb_refl]. }
  now rewrite H.
Qed.

Lemma contains_trans (p q s : string) :
  contains p q = true -> contains q s = true -> contains p s = true.
Proof.
  rewrite (contains_spec q s). intros Hp [a [b ->]].
  now apply contains_app_r, contains_app_l.
Qed.

Lemma contains_join (sep x : string) (l : list string) :
  In x l -> contains x (join sep l) = true.
Proof.
  induction l as [|y l IH]; [intros [] |].
  intros [-> | Hin].
  - destruct l; simpl; [apply contains_refl | apply contains_app_l, contains_refl].
  - destruct l as [|z l]; [destruct Hin |].
    change (join sep (y :: z :: l)) with (y ++ sep ++ join sep (z :: l)).
    now apply contains_app_r, contains_app_r, IH.
Qed.

(** ** The flags after the scans *)

Section Flags.
Import Classifier Evidence.

Lemma scan_value_flags (v : string) (r a n w q s f : bool) :
  scan_value v (mk_flags r a n w q s f)
  = mk_flags (r || tag_react v) (a || tag_angular v) (n || tag_next v) w q s f.
Proof.
  unfold scan_value, tag_react, tag_angular, tag_next, mk_flags.
  destruct (contains "react" v), (contains "angular" v), (contains "next" v);
    cbn; rewrite ?orb_true_r, ?orb_false_r; reflexivity.
Qed.

Lemma scan_tags_flags {T : Type} (g : T -> string) (tags : list T) :
  forall r a n w q s f,
    fold_left (fun fw t => scan_value (g t) fw) tags (mk_flags r a n w q s f)
    = mk_flags (r || existsb tag_react (map g tags))
               (a || existsb tag_angular (map g tags))
               (n || existsb tag_next (map g tags)) w q s f.
Proof.
  induction tags as [|t tags IH]; intros r a n w q s f; simpl.
  - now rewrite !orb_false_r.
  - rewrite scan_value_flags, IH, !orb_assoc. reflexivity.
Qed.

Lemma scan_markers_flags (page : string) (r a n w q s f : bool) :
  scan_markers page (mk_flags r a n w q s f)
  = mk_flags (r || (contains "data-reactroot" page || contains "react-root" page))
             (a || (contains "ng-" page || contains "angular" page))
             (n || contains "__next" page) w q s f.
Proof.
  unfold scan_markers, mk_flags.
  destruct (contains "data-reactroot" page || contains "react-root" page),
           (contains "ng-" page || contains "angular" page),
           (contains "__next" page);
    cbn; rewrite ?orb_true_r, ?orb_false_r; reflexivity.
Qed.

(** The flags after the four scans are the evidence, key by key. *)
Lemma scan_flags (url : string) (soup : Soup) :
  scan url soup
  = mk_flags (react soup) (angular soup) (next soup)
             (wix url soup) (squarespace soup) (shopify soup) (webflow soup).
Proof.
  unfold scan, scan_metas, scan_scripts.
  change initial with (mk_flags false false false false false false false).
  rewrite !scan_tags_flags, scan_markers_flags. cbn [orb].
  unfold react, angular, next, values. rewrite !existsb_app.
  unfold scan_builders, wix, squarespace, shopify, webflow, mk_flags.
  destruct (contains "wixsite.com" url
            || contains "static.parastorage.com" (page_source soup)
            || contains "wix.com" (page_source soup)),
           (contains "squarespace.com" (page_source soup)
            || contains (generator "Squarespace") (page_source soup)),
           (contains "cdn.shopify.com" (page_source soup)
            || contains (generator "Shopify") (page_source soup)
            || contains "shopify" (page_source soup)),
           (contains "webflow.com" (page_source soup)
            || contains (generator "Webflow") (page_source soup));
    reflexivity.
Qed.

(** What [classify] returns, in terms of the evidence. *)
Lemma classify_matched (url : string) (soup : Soup) :
  classify url soup
  = match matched_builders url soup with
    | _ :: _ =>
        failure ("Framework not supported: "
                 ++ join ", " (matched_builders url soup))
    | [] =>
        match matched_frameworks soup with
        | _ :: _ => success (matched_frameworks soup)
        | [] => success ["Unknown"]
        end
    end.
Proof.
  unfold classify, classify_body. rewrite scan_flags.
  unfold matched_builders, matched_frameworks, builder, framework,
    site_builders, js_frameworks, detected_of, items, mk_flags.
  cbn [filter String.eqb Ascii.eqb Bool.eqb].
  destruct (react soup), (angular soup), (next soup), (wix url soup),
    (squarespace soup), (shopify soup), (webflow soup); reflexivity.
Qed.

End Flags.

(** ** Auxiliary facts about the returned dictionaries *)

Lemma strings_of_map (l : list string) : strings_of (map JStr l) = Some l.
Proof. induction l as [|x l IH]; simpl; [reflexivity | now rewrite IH]. Qed.

Lemma frameworks_of_success (l : list string) : frameworks_of (success l) = Some l.
Proof. unfold frameworks_of, success. cbn. apply strings_of_map. Qed.

Lemma filter_subseq {A : Type} (p : A -> bool) (l : list A) :
  subseq (filter p l) l.
Proof.
  induction l as [|x l IH]; simpl; [constructor |].
  destruct (p x); now constructor.
Qed.

Lemma existsb_none {A : Type} (p : A -> bool) (l : list A) :
  (forall x, In x l -> p x = false) -> existsb p l = false.
Proof.
  induction l as [|x l IH]; intros H; simpl; [reflexivity |].
  rewrite (H x (or_introl eq_refl)), IH; [reflexivity |].
  intros y Hy. apply H. now right.
Qed.

Lemma dict_mem_find {V : Type} (k : string) (d : dict V) (v : V) :
  dict_find k d = Some v -> dict_mem k d = true.
Proof.
  induction d as [|[k' v'] d IH]; simpl; [discriminate |].
  destruct (String.eqb k k'); [reflexivity | exact IH].
Qed.

Section Verdicts.
Import Classifier Evidence.

(** The list comprehension over [site_builders] never raises and
    selects the builders whose signatures match. *)
Lemma select_matched (url : string) (soup : Soup) :
  select site_builders (scan url soup) = Ret (matched_builders url soup).
Proof.
  rewrite scan_flags.
  unfold matched_builders, builder, site_builders, mk_flags.
  cbn [filter String.eqb Ascii.eqb Bool.eqb].
  destruct (wix url soup), (squarespace soup), (shopify soup), (webflow soup);
    reflexivity.
Qed.

Lemma matched_builders_In (url : string) (soup : Soup) (name : string) :
  In name (matched_builders url soup)
  <-> In name site_builders /\ builder url soup name = true.
Proof. apply filter_In. Qed.

(** A matching builder signature decides the verdict. *)
Lemma classify_builder_error (url : string) (soup : Soup) (name : string) :
  In name (matched_builders url soup) ->
  classify url soup
  = failure ("Framework not supported: " ++ join ", " (matched_builders url soup)).
Proof.
  intros Hin. rewrite classify_matched.
  destruct (matched_builders url soup); [destruct Hin | reflexivity].
Qed.

(** Without a matching builder signature the verdict is the list of
    matched frameworks, or [Unknown]. *)
Lemma classify_no_builder (url : string) (soup : Soup) :
  (forall b, builder url soup b = false) ->
  classify url soup
  = match matched_frameworks soup with
    | _ :: _ => success (matched_frameworks soup)
    | [] => success ["Unknown"]
    end.
Proof.
  intros Hno. rewrite classify_matched.
  destruct (matched_builders url soup) as [|b l] eqn:E; [reflexivity |].
  assert (Hin : In b (matched_builders url soup)) by (rewrite E; now left).
  apply matched_builders_In in Hin. rewrite Hno in Hin. now destruct Hin.
Qed.

Lemma add_scheme_contains (p url : string) :
  contains p url = true -> contains p (add_scheme url) = true.
Proof.
  intros H. unfold add_scheme.
  destruct (startswith "http://" url || startswith "https://" url);
    [exact H | now apply contains_app_r].
Qed.

End Verdicts.

(** ** The store: a call works on the dictionary it has created *)

Section StoreFacts.
Import Classifier.
Local Open Scope list_scope.

Lemma nth_error_fresh (h : Store.heap) (d : dict bool) :
  nth_error (h ++ [d]) (List.length h) = Some d.
Proof. induction h as [|x h IH]; simpl; [reflexivity | exact IH]. Qed.

Lemma update_fresh (h : Store.heap) (f : dict bool -> dict bool) (d : dict bool) :
  Store.update (List.length h) f (h ++ [d]) = (h ++ [f d])%list.
Proof. induction h as [|x h IH]; simpl; [reflexivity | now rewrite IH]. Qed.

Lemma store_fresh (h : Store.heap) (d : dict bool) (k : string) (v : bool) :
  Store.store (List.length h) k v (h ++ [d])
  = (Ret tt, (h ++ [dict_set k v d])%list).
Proof. unfold Store.store. now rewrite nth_error_fresh, update_fresh. Qed.

Lemma when_fresh (h : Store.heap) (d : dict bool) (b : bool) (k : string)
  (v : bool) :
  Store.when b (Store.store (List.length h) k v) (h ++ [d])
  = (Ret tt, (h ++ [if b then dict_set k v d else d])%list).
Proof. destruct b; [apply store_fresh | reflexivity]. Qed.

Lemma scan_value_fresh (h : Store.heap) (d : dict bool) (v : string) :
  Store.scan_value (List.length h) v (h ++ [d])
  = (Ret tt, (h ++ [scan_value v d])%list).
Proof.
  unfold Store.scan_value, scan_value.
  destruct (contains "react" v); [apply store_fresh |].
  destruct (contains "angular" v); [apply store_fresh |].
  destruct (contains "next" v); [apply store_fresh | reflexivity].
Qed.

(** A loop over tags leaves in the store what the fold computes. *)
Lemma for_each_fresh {A : Type} (g : A -> string) (l : list A)
  (h : Store.heap) (d : dict bool) :
  Store.for_each l (fun x => Store.scan_value (List.length h) (g x)) (h ++ [d])
  = (Ret tt, (h ++ [fold_left (fun fw x => scan_value (g x) fw) l d])%list).
Proof.
  revert d. induction l as [|x l IH]; intros d; [reflexivity |].
  cbn [Store.for_each fold_left]. unfold Store.pbind.
  rewrite scan_value_fresh. apply IH.
Qed.

Lemma scan_markers_fresh (h : Store.heap) (d : dict bool) (page : string) :
  Store.scan_markers (List.length h) page (h ++ [d])
  = (Ret tt, (h ++ [scan_markers page d])%list).
Proof.
  unfold Store.scan_markers, Store.pbind, scan_markers.
  rewrite !when_fresh. reflexivity.
Qed.

Lemma scan_builders_fresh (h : Store.heap) (d : dict bool) (url page : string) :
  Store.scan_builders (List.length h) url page (h ++ [d])
  = (Ret tt, (h ++ [scan_builders url page d])%list).
Proof.
  unfold Store.scan_builders, Store.pbind, scan_builders.
  rewrite !when_fresh. reflexivity.
Qed.

Lemma select_fresh (h : Store.heap) (d : dict bool) (names : list string) :
  Store.select (List.length h) names (h ++ [d])
  = (select names d, (h ++ [d])%list).
Proof.
  induction names as [|fw names IH]; [reflexivity |].
  cbn [Store.select select]. unfold Store.pbind at 1. unfold Store.load.
  rewrite nth_error_fresh.
  destruct (dict_get fw d) as [b | e]; cbn [bind]; [| reflexivity].
  unfold Store.pbind. rewrite IH.
  destruct (select names d); reflexivity.
Qed.

(** A call creates its dictionary at a new address, runs the scans on
    it, never reaches for an address without an object, and answers as
    [Classifier.classify] does; the objects that were in the store are
    left as they were. *)
Lemma classify_runs (url : string) (soup : Soup) (h : Store.heap) :
  Store.classify url soup h
  = (Ret (classify url soup), (h ++ [scan url soup])%list).
Proof.
  unfold Store.classify, Store.alloc. unfold Store.pbind at 1.
  unfold Store.try_parsing, Store.classify_body.
  unfold Store.pbind at 1. rewrite (for_each_fresh meta_content).
  unfold Store.pbind at 1. rewrite (for_each_fresh script_src).
  cbv zeta.
  unfold Store.pbind at 1. rewrite scan_markers_fresh.
  unfold Store.pbind at 1. rewrite scan_builders_fresh.
  unfold Store.pbind at 1. rewrite select_fresh.
  unfold classify, classify_body.
  change (scan_builders url (page_source soup)
            (scan_markers (page_source soup)
               (fold_left (fun fw x => scan_value (script_src x) fw)
                  (find_all_script soup)
                  (fold_left (fun fw x => scan_value (meta_content x) fw)
                     (find_all_meta soup) initial))))
    with (scan url soup).
  destruct (select site_builders (scan url soup)) as [[|b l] | e];
    cbn [bind]; try reflexivity.
  unfold Store.pbind, Store.load_items. rewrite nth_error_fresh.
  unfold detected_of.
  destruct (map fst (filter snd (items (scan url soup)))); reflexivity.
Qed.

End StoreFacts.

(** ** The classifier's verdicts *)

Section ClassifierClaims.
Import Classifier Evidence.

(** C1 does not hold of the code.  The generator strings
    [content="Squarespace"] and [content="Webflow"] are among the
    signatures the code looks for (lines 120 and 124), but it looks for
    them, capital letter included, in the lower-cased page source (line
    107), where they cannot occur.  A page whose generator tag names
    Squarespace is answered [compatible = True] with [Unknown], and a
    React page whose generator tag names Webflow is answered
    [compatible = True] with React, although the markup holds the
    signature and a search of the page source for the lower-cased
    signature finds it.  The URL is searched as it was typed (line 118):
    [wixsite.com] written in capitals goes unnoticed too. *)
Theorem generator_signature_missed :
  (contains (generator "Squarespace") (str_soup squarespace_generator_page)
   = true
   /\ contains (lower (generator "Squarespace"))
               (page_source squarespace_generator_page) = true
   /\ contains (generator "Squarespace")
               (page_source squarespace_generator_page) = false
   /\ matched_builders "https://example.com" squarespace_generator_page = []
   /\ classify "https://example.com" squarespace_generator_page
      = success ["Unknown"]
   /\ compatible_of (classify "https://example.com" squarespace_generator_page)
      = Some true)
  /\ (contains (generator "Webflow") (str_soup webflow_generator_react_page)
      = true
      /\ contains (lower (generator "Webflow"))
                  (page_source webflow_generator_react_page) = true
      /\ matched_builders "https://example.com" webflow_generator_react_page
         = []
      /\ classify "https://example.com" webflow_generator_react_page
         = success ["React"]
      /\ compatible_of
           (classify "https://example.com" webflow_generator_react_page)
         = Some true)
  /\ (contains (lower "wixsite.com") (lower "MYSITE.WIXSITE.COM") = true
      /\ classify (add_scheme "MYSITE.WIXSITE.COM") empty_page
         = success ["Unknown"]).
Proof. repeat split. Qed.

(** What the code does for the signatures it can find: whenever one of
    the conditions of lines 118-125 holds (for instance [cdn.shopify.com]
    occurs in the lower-cased page source), the classifier returns
    [compatible = False] and no [frameworks], and the error text names
    every builder whose condition holds, whatever framework signatures
    match as well. *)
Lemma builders_override_frameworks
  (url : string) (soup : Soup) (name : string) :
  In name site_builders ->
  builder url soup name = true ->
  compatible_of (classify url soup) = Some false
  /\ frameworks_of (classify url soup) = None
  /\ exists msg,
       error_of (classify url soup) = Some msg
       /\ forall b, In b site_builders -> builder url soup b = true ->
                    contains b msg = true.
Proof.
  intros Hin Hb.
  assert (Hm : In name (matched_builders url soup))
    by now apply matched_builders_In.
  rewrite (classify_builder_error url soup name Hm).
  repeat split.
  eexists. split; [reflexivity |].
  intros b Hb1 Hb2.
  apply contains_app_r, contains_join, matched_builders_In. now split.
Qed.

Lemma builders_override_frameworks_witness :
  contains "cdn.shopify.com" (page_source shopify_react_page) = true
  /\ framework shopify_react_page "React" = true
  /\ compatible_of (classify "https://shop.example" shopify_react_page)
     = Some false
  /\ error_of (classify "https://shop.example" shopify_react_page)
     = Some "Framework not supported: Shopify".
Proof.
  split; [reflexivity |]. split; [reflexivity |].
  destruct (builders_override_frameworks
              "https://shop.example" shopify_react_page "Shopify")
    as [Hc _].
  - simpl; tauto.
  - reflexivity.
  - split; [exact Hc | reflexivity].
Defined.

(** C3. A document without any evidence (no meta content and no script
    source holding one of the words, no marker in the page source, no
    builder domain in the URL) is classified as compatible with the
    one-element list [Unknown]. *)
Theorem no_evidence_unknown (url : string) (soup : Soup) :
  Evidence.none url soup ->
  classify url soup = success ["Unknown"]
  /\ compatible_of (classify url soup) = Some true
  /\ frameworks_of (classify url soup) = Some ["Unknown"].
Proof.
  intros [Hv [Hp Hu]].
  assert (Hpage : forall m, In m
            ["data-reactroot"; "react-root"; "ng-"; "angular"; "__next";
             "static.parastorage.com"; "wix.com"; "squarespace.com";
             generator "Squarespace"; "cdn.shopify.com";
             generator "Shopify"; "shopify"; "webflow.com";
             generator "Webflow"] ->
            contains m (page_source soup) = false) by exact Hp.
  assert (Hr : existsb tag_react (values soup) = false).
  { apply existsb_none. intros v Hin. now apply Hv. }
  assert (Ha : existsb tag_angular (values soup) = false).
  { apply existsb_none. intros v Hin. unfold tag_angular.
    destruct (Hv v Hin) as [_ [-> _]]. apply andb_false_r. }
  assert (Hn : existsb tag_next (values soup) = false).
  { apply existsb_none. intros v Hin. unfold tag_next.
    destruct (Hv v Hin) as [_ [_ ->]]. apply andb_false_r. }
  assert (E : classify url soup = success ["Unknown"]).
  { rewrite classify_matched.
    unfold matched_builders, matched_frameworks, builder, framework,
      site_builders, js_frameworks, react, angular, next, wix, squarespace,
      shopify, webflow.
    cbn [filter String.eqb Ascii.eqb Bool.eqb].
    rewrite Hr, Ha, Hn, Hu.
    rewrite !Hpage by (simpl; tauto).
    reflexivity. }
  rewrite E. repeat split.
Qed.

Lemma no_evidence_unknown_witness :
  classify "https://example.com" empty_page = success ["Unknown"].
Proof.
  apply (no_evidence_unknown "https://example.com" empty_page).
  split; [intros v [] | split; [| reflexivity]].
  intros marker Hin. simpl in Hin.
  repeat (destruct Hin as [<- | Hin]; [reflexivity |]). destruct Hin.
Defined.

(** C5. When the list of detected builders is not empty, the result is
    the error [Framework not supported: ] followed by the detected names
    joined by a comma and a space; the names are those of the builders
    whose signatures match, in the order of the list Wix, Squarespace,
    Shopify, Webflow. *)
Theorem error_lists_builders_in_order
  (url : string) (soup : Soup) (detected_builders : list string) :
  select site_builders (scan url soup) = Ret detected_builders ->
  detected_builders <> [] ->
  classify url soup
  = failure ("Framework not supported: " ++ join ", " detected_builders)
  /\ subseq detected_builders ["Wix"; "Squarespace"; "Shopify"; "Webflow"]
  /\ forall b, In b detected_builders
               <-> In b site_builders /\ builder url soup b = true.
Proof.
  rewrite select_matched. intros [= <-] Hne.
  split; [| split].
  - destruct (matched_builders url soup) as [|b l] eqn:E; [now destruct Hne |].
    rewrite <- E. apply (classify_builder_error url soup b).
    rewrite E. now left.
  - apply filter_subseq.
  - intros b. apply matched_builders_In.
Qed.

Lemma error_lists_builders_in_order_witness :
  classify "https://example.com" webflow_shopify_page
  = failure "Framework not supported: Shopify, Webflow".
Proof.
  apply (error_lists_builders_in_order
           "https://example.com" webflow_shopify_page ["Shopify"; "Webflow"]).
  - reflexivity.
  - discriminate.
Defined.

(** C8. A document whose page source contains [data-reactroot] and
    which shows no builder signature, in the page or in the URL, is
    classified as compatible, and React is among the frameworks. *)
Theorem reactroot_detects_react (url : string) (soup : Soup) :
  contains "data-reactroot" (page_source soup) = true ->
  (forall b, builder url soup b = false) ->
  compatible_of (classify url soup) = Some true
  /\ exists l, frameworks_of (classify url soup) = Some l /\ In "React" l.
Proof.
  intros Hroot Hno. rewrite (classify_no_builder url soup Hno).
  assert (Hin : In "React" (matched_frameworks soup)).
  { apply filter_In. split; [simpl; tauto |].
    unfold framework, react. cbn [String.eqb Ascii.eqb Bool.eqb].
    rewrite Hroot. apply orb_true_r. }
  destruct (matched_frameworks soup) as [|x l] eqn:E; [destruct Hin |].
  split; [reflexivity |].
  exists (x :: l). split; [apply frameworks_of_success | exact Hin].
Qed.

Lemma reactroot_detects_react_witness :
  compatible_of (classify "https://example.com" react_root_page) = Some true
  /\ exists l,
       frameworks_of (classify "https://example.com" react_root_page) = Some l
       /\ In "React" l.
Proof.
  apply (reactroot_detects_react "https://example.com" react_root_page).
  - reflexivity.
  - intros b. unfold builder.
    destruct (String.eqb b "Wix"); [reflexivity |].
    destruct (String.eqb b "Squarespace"); [reflexivity |].
    destruct (String.eqb b "Shopify"); [reflexivity |].
    destruct (String.eqb b "Webflow"); reflexivity.
Defined.

End ClassifierClaims.

Section MoreClassifierClaims.
Import Classifier Evidence.

(** C2, as the claim states it, fails: on the document that consists of
    the single tag [<meta content="react angular">], with no script and
    no builder signature, the returned frameworks are React and Angular.
    The meta scan registers React only, but the page source holds the
    tag, and with it the word [angular], which the page-source scan
    looks for. *)
Lemma react_angular_page_detects_both :
  find_all_meta react_angular_page = [[("content", "react angular")]]
  /\ find_all_script react_angular_page = []
  /\ str_soup react_angular_page
     = "<meta content=" ++ dq ++ "react angular" ++ dq ++ "/>"
  /\ matched_builders "https://example.com" react_angular_page = []
  /\ classify "https://example.com" react_angular_page
     = success ["React"; "Angular"]
  /\ ~ (exists l,
          frameworks_of (classify "https://example.com" react_angular_page)
          = Some l
          /\ In "React" l /\ ~ In "Angular" l).
Proof.
  repeat (split; [reflexivity |]).
  intros [l [Hl [_ Hnot]]].
  assert (E : frameworks_of (classify "https://example.com" react_angular_page)
              = Some ["React"; "Angular"]) by reflexivity.
  rewrite E in Hl. injection Hl as <-. apply Hnot. simpl. tauto.
Qed.

(** C2, amended. For a document with a single meta tag whose content is
    [react angular], the meta scan sets the React flag and no other:
    the first matching branch of the chain wins.  When no builder
    signature matches, the result lists React, and it lists Angular
    exactly when a script source or the page source yields Angular; the
    page source does so as soon as it holds the content of the tag. *)
Theorem meta_tag_first_match_wins
  (url : string) (soup : Soup) (meta : Tag) :
  find_all_meta soup = [meta] ->
  tag_get meta "content" EmptyString = "react angular" ->
  scan_metas (find_all_meta soup) initial = dict_set "React" true initial
  /\ ((forall b, builder url soup b = false) ->
      exists l, classify url soup = success l
                /\ In "React" l
                /\ (In "Angular" l <-> angular_elsewhere soup = true))
  /\ (contains "react angular" (page_source soup) = true ->
      angular_elsewhere soup = true).
Proof.
  intros Hmetas Hcontent.
  assert (Hv : meta_content meta = "react angular").
  { unfold meta_content. now rewrite Hcontent. }
  split; [| split].
  - rewrite Hmetas. unfold scan_metas. simpl. now rewrite Hv.
  - intros Hno. rewrite (classify_no_builder url soup Hno).
    assert (Hr : react soup = true).
    { unfold react, values. rewrite Hmetas. simpl. now rewrite Hv. }
    assert (Ha : angular soup = angular_elsewhere soup).
    { unfold angular, angular_elsewhere, values. rewrite Hmetas. simpl.
      now rewrite Hv. }
    unfold matched_frameworks, framework, js_frameworks.
    cbn [filter String.eqb Ascii.eqb Bool.eqb].
    rewrite Hr, Ha.
    destruct (angular_elsewhere soup), (next soup);
      eexists; (split; [reflexivity |]); simpl;
      intuition discriminate.
  - intros Hpage. unfold angular_elsewhere.
    assert (H : contains "angular" (page_source soup) = true).
    { apply (contains_trans "angular" "react angular"); [reflexivity | exact Hpage]. }
    rewrite H, !orb_true_r. reflexivity.
Qed.

Lemma meta_tag_first_match_wins_witness :
  scan_metas (find_all_meta react_angular_page) initial
  = dict_set "React" true initial
  /\ angular_elsewhere react_angular_page = true.
Proof.
  destruct (meta_tag_first_match_wins
              "https://example.com" react_angular_page
              [("content", "react angular")] eq_refl eq_refl)
    as [Hscan [_ Hpage]].
  split; [exact Hscan | apply Hpage; reflexivity].
Defined.

(** C9. When the classifier answers [compatible = True], the list of
    frameworks is not empty and is either [Unknown] alone or a
    subsequence of React, Angular, Next.js; Vue, Wix, Squarespace,
    Shopify and Webflow never occur in it. *)
Theorem compatible_frameworks_shape (url : string) (soup : Soup) :
  compatible_of (classify url soup) = Some true ->
  exists l,
    frameworks_of (classify url soup) = Some l
    /\ l <> []
    /\ (l = ["Unknown"] \/ subseq l ["React"; "Angular"; "Next.js"])
    /\ forall name,
         In name ["Vue"; "Wix"; "Squarespace"; "Shopify"; "Webflow"] ->
         ~ In name l.
Proof.
  rewrite classify_matched.
  destruct (matched_builders url soup); [| discriminate].
  intros _.
  unfold matched_frameworks, framework, js_frameworks.
  cbn [filter String.eqb Ascii.eqb Bool.eqb].
  destruct (react soup), (angular soup), (next soup);
    eexists; (split; [apply frameworks_of_success |]);
    (split; [discriminate |]);
    (split; [first [left; reflexivity | right; repeat constructor] |]);
    intros name Hin Hl; simpl in Hin, Hl;
    repeat (destruct Hin as [<- | Hin];
            [repeat (destruct Hl as [Hl | Hl]; [discriminate Hl |]);
             destruct Hl |]);
    destruct Hin.
Qed.

Lemma compatible_frameworks_shape_witness :
  exists l,
    frameworks_of (classify "https://example.com" react_angular_page) = Some l
    /\ l <> []
    /\ (l = ["Unknown"] \/ subseq l ["React"; "Angular"; "Next.js"])
    /\ forall name,
         In name ["Vue"; "Wix"; "Squarespace"; "Shopify"; "Webflow"] ->
         ~ In name l.
Proof.
  apply (compatible_frameworks_shape "https://example.com" react_angular_page).
  reflexivity.
Defined.

(** The answer is determined by the URL, the lower-cased contents of
    the meta tags, the lower-cased sources of the script tags and the
    lower-cased page source; no other attribute of a tag is looked at. *)
Lemma classify_of_values (url : string) (soup1 soup2 : Soup) :
  map meta_content (find_all_meta soup1)
  = map meta_content (find_all_meta soup2) ->
  map script_src (find_all_script soup1)
  = map script_src (find_all_script soup2) ->
  page_source soup1 = page_source soup2 ->
  classify url soup1 = classify url soup2.
Proof.
  intros Hm Hs Hp. rewrite !classify_matched.
  assert (Hb : forall b, builder url soup1 b = builder url soup2 b).
  { intros b. unfold builder, wix, squarespace, shopify, webflow.
    now rewrite Hp. }
  assert (Hf : forall n, framework soup1 n = framework soup2 n).
  { intros n. unfold framework, react, angular, next, values.
    now rewrite Hm, Hs, Hp. }
  unfold matched_builders, matched_frameworks.
  rewrite (filter_ext _ _ Hb), (filter_ext _ _ Hf). reflexivity.
Qed.

(** C10. Classification keeps no state between calls and is a function
    of the document.  With the objects of the process in a store that
    outlives the calls: whatever earlier calls have left in the store, a
    call returns a result, and the result is determined by the URL, the
    contents of the meta tags, the sources of the script tags and the
    page source.  Two calls on documents that agree on these, and so two
    calls on one document, return the same result, also when the second
    runs in the store the first has left; and a call changes no object
    that was in the store before it. *)
Theorem classify_deterministic
  (url : string) (soup1 soup2 : Soup) (h1 h2 : Store.heap) :
  map meta_content (find_all_meta soup1)
  = map meta_content (find_all_meta soup2) ->
  map script_src (find_all_script soup1)
  = map script_src (find_all_script soup2) ->
  page_source soup1 = page_source soup2 ->
  exists r,
    fst (Store.classify url soup1 h1) = Ret r
    /\ fst (Store.classify url soup2 h2) = Ret r
    /\ Store.classify_twice url soup1 url soup2 h1 = (Ret r, Ret r)
    /\ Store.classify_twice url soup1 url soup1 h1 = (Ret r, Ret r)
    /\ exists d, snd (Store.classify url soup1 h1) = (h1 ++ [d])%list.
Proof.
  intros Hm Hs Hp. exists (classify url soup1).
  pose proof (classify_of_values url soup1 soup2 Hm Hs Hp) as E.
  unfold Store.classify_twice.
  repeat (rewrite classify_runs; cbn [fst snd]).
  rewrite <- E. repeat split. now exists (scan url soup1).
Qed.

Lemma classify_deterministic_witness :
  Store.classify_twice
    "https://example.com"
    (mkSoup [[("name", "generator"); ("content", "REACT Angular")]] []
            (str_soup react_angular_page))
    "https://example.com" react_angular_page
    (snd (Store.classify "https://shop.example" shopify_react_page []))
  = (Ret (success ["React"; "Angular"]), Ret (success ["React"; "Angular"])).
Proof.
  destruct (classify_deterministic
              "https://example.com"
              (mkSoup [[("name", "generator"); ("content", "REACT Angular")]] []
                      (str_soup react_angular_page))
              react_angular_page
              (snd (Store.classify "https://shop.example" shopify_react_page []))
              [] eq_refl eq_refl eq_refl)
    as [r [_ [H2 [H _]]]].
  rewrite H. vm_compute in H2. injection H2 as <-. reflexivity.
Defined.

End MoreClassifierClaims.

(** ** The endpoint *)

Section EndpointClaims.
Import Classifier Evidence.

Lemma truthy_with_url (fields : dict json) (v : json) :
  dict_find "url" fields = Some v -> truthy (JObj fields) = true.
Proof. destruct fields; [discriminate | reflexivity]. Qed.

(** The handler on a well-formed request: it calls [detect_framework] on
    the stripped URL and answers with status 200. *)
Lemma check_site_well_formed (w : world) (fields : dict json) (s : string) :
  dict_find "url" fields = Some (JStr s) ->
  nonempty (strip s) = true ->
  check_site w (Ret (JObj fields))
  = (fst (detect_framework w (strip s)), 200,
     snd (detect_framework w (strip s))).
Proof.
  intros Hfind Hne. unfold check_site, check_site_body.
  cbn [bind]. rewrite (truthy_with_url fields _ Hfind). cbn [negb].
  unfold has_url. cbn [bind]. rewrite (dict_mem_find _ _ _ Hfind). cbn [negb].
  unfold url_of, dict_get. rewrite Hfind. cbn [bind]. rewrite Hne. cbn [negb].
  destruct (detect_framework w (strip s)); reflexivity.
Qed.

(** C4. For an input URL that contains [wixsite.com], whatever the
    fetched document, the answer is [compatible = False] with an error
    that mentions Wix: the URL alone is evidence enough.  On an empty
    document the error is [Framework not supported: Wix]. *)
Theorem url_evidence_detects_wix
  (w : world) (url text : string) (soup : Soup) :
  contains "wixsite.com" url = true ->
  requests_get w (add_scheme url) = Ret text ->
  BeautifulSoup w text = Ret soup ->
  compatible_of (fst (detect_framework w url)) = Some false
  /\ (exists msg, error_of (fst (detect_framework w url)) = Some msg
                  /\ contains "Wix" msg = true)
  /\ (soup = empty_page ->
      fst (detect_framework w url) = failure "Framework not supported: Wix").
Proof.
  intros Hurl Hget Hparse.
  assert (Hu : contains "wixsite.com" (add_scheme url) = true)
    by now apply add_scheme_contains.
  assert (E : fst (detect_framework w url) = classify (add_scheme url) soup).
  { unfold detect_framework, detect_body. cbn [fst].
    rewrite Hget. cbn [bind]. rewrite Hparse. reflexivity. }
  assert (Hwix : wix (add_scheme url) soup = true).
  { unfold wix. now rewrite Hu. }
  assert (Hin : In "Wix" (matched_builders (add_scheme url) soup)).
  { apply matched_builders_In. split; [simpl; tauto | exact Hwix]. }
  rewrite E, (classify_builder_error _ _ _ Hin).
  split; [reflexivity | split].
  - eexists. split; [reflexivity |].
    now apply contains_app_r, contains_join.
  - intros ->. f_equal.
    unfold matched_builders, builder, site_builders.
    cbn [filter String.eqb Ascii.eqb Bool.eqb]. rewrite Hwix. reflexivity.
Qed.

Lemma url_evidence_detects_wix_witness :
  fst (detect_framework (serving empty_page) "mysite.wixsite.com")
  = failure "Framework not supported: Wix".
Proof.
  apply (url_evidence_detects_wix
           (serving empty_page) "mysite.wixsite.com" EmptyString empty_page);
    reflexivity.
Defined.

(** C6. When the request for the URL times out, the handler answers with
    the dictionary [compatible = False], [error = Request timed out.
    Please check the URL and try again.] and with status 200. *)
Theorem timeout_reported_with_status_200
  (w : world) (fields : dict json) (s : string)
  (c : requests_class) (msg : string) :
  dict_find "url" fields = Some (JStr s) ->
  nonempty (strip s) = true ->
  requests_get w (add_scheme (strip s)) = Raise (Requests c msg) ->
  is_Timeout c = true ->
  check_site w (Ret (JObj fields))
  = (JObj [("compatible", JBool false);
           ("error",
            JStr "Request timed out. Please check the URL and try again.")],
     200, [HttpGet (add_scheme (strip s))]).
Proof.
  intros Hfind Hne Hget Htimeout.
  rewrite (check_site_well_formed w fields s Hfind Hne).
  unfold detect_framework, detect_body. cbn [fst snd].
  rewrite Hget. unfold on_request_error. rewrite Htimeout. reflexivity.
Qed.

Lemma timeout_reported_with_status_200_witness :
  check_site timeout_world (Ret example_request)
  = (failure "Request timed out. Please check the URL and try again.",
     200, [HttpGet "https://example.com"]).
Proof.
  apply (timeout_reported_with_status_200
           timeout_world [("url", JStr "example.com")] "example.com"
           ReadTimeout "Read timed out.");
    reflexivity.
Defined.

(** C7. A malformed request (no body, no [url] key, a [url] that is not
    a string, a [url] that is empty once stripped) is answered with a
    dictionary [compatible = False], [error = message] and status 400,
    and no request is sent: the answer and the empty trace are the same
    in every world. *)
Theorem malformed_request_rejected (data : json) :
  malformed data ->
  exists msg, forall w : world,
    check_site w (Ret data) = (failure msg, 400, []).
Proof.
  intros [ | fields Hmem | fields v Hfind Hnot | fields s Hfind Hempty].
  - exists "No data provided". reflexivity.
  - destruct fields as [|kv fields].
    + exists "No data provided". reflexivity.
    + exists "URL is required". intros w.
      unfold check_site, check_site_body. cbn [bind truthy negb has_url].
      rewrite Hmem. reflexivity.
  - exists "URL must be a string". intros w.
    unfold check_site, check_site_body. cbn [bind].
    rewrite (truthy_with_url fields _ Hfind). cbn [negb has_url bind].
    rewrite (dict_mem_find _ _ _ Hfind). cbn [negb].
    unfold url_of, dict_get. rewrite Hfind. cbn [bind].
    destruct v; try reflexivity. now destruct (Hnot s).
  - exists "URL cannot be empty". intros w.
    unfold check_site, check_site_body. cbn [bind].
    rewrite (truthy_with_url fields _ Hfind). cbn [negb has_url bind].
    rewrite (dict_mem_find _ _ _ Hfind). cbn [negb].
    unfold url_of, dict_get. rewrite Hfind. cbn [bind].
    rewrite Hempty. reflexivity.
Qed.

Lemma malformed_request_rejected_witness :
  exists msg, forall w : world,
    check_site w (Ret (JObj [("url", JStr "   ")])) = (failure msg, 400, []).
Proof.
  apply malformed_request_rejected.
  apply (url_empty [("url", JStr "   ")] "   "); reflexivity.
Defined.

End EndpointClaims.

(** ** Beyond the claims: the fetch layer *)

Section FetchLayer.
Import Classifier Evidence.

Lemma startswith_refl_app (p s : string) : startswith p (p ++ s) = true.
Proof. apply startswith_spec. now exists s. Qed.

(** X1. The URL that is requested always starts with [http://] or
    [https://]; a URL that already does is requested as it is, any other
    gets [https://] in front; adding the scheme twice changes nothing. *)
Theorem add_scheme_normalises (url : string) :
  (startswith "http://" (add_scheme url)
   || startswith "https://" (add_scheme url)) = true
  /\ (startswith "http://" url = true \/ startswith "https://" url = true ->
      add_scheme url = url)
  /\ (startswith "http://" url = false /\ startswith "https://" url = false ->
      add_scheme url = "https://" ++ url)
  /\ add_scheme (add_scheme url) = add_scheme url.
Proof.
  assert (H : (startswith "http://" (add_scheme url)
               || startswith "https://" (add_scheme url)) = true).
  { unfold add_scheme.
    destruct (startswith "http://" url || startswith "https://" url) eqn:E.
    - exact E.
    - rewrite (startswith_refl_app "https://" url). apply orb_true_r. }
  split; [exact H | split; [| split]].
  - intros Hs. unfold add_scheme.
    destruct Hs as [-> | ->]; [reflexivity | now rewrite orb_true_r].
  - intros [Hp Hq]. unfold add_scheme. now rewrite Hp, Hq.
  - unfold add_scheme at 1. now rewrite H.
Qed.

Lemma add_scheme_normalises_witness :
  add_scheme "http://example.com" = "http://example.com"
  /\ add_scheme "example.com/http://" = "https://example.com/http://".
Proof.
  split.
  - destruct (add_scheme_normalises "http://example.com") as [_ [H _]].
    apply H. left. reflexivity.
  - destruct (add_scheme_normalises "example.com/http://") as [_ [_ [H _]]].
    apply H. split; reflexivity.
Defined.

(** X2. A [requests] exception is answered by the message of its most
    specific handler: a connect timeout counts as a timeout and an SSL
    error as an SSL error, although both are connection errors too; one
    request was sent and the parser is not consulted. *)
Theorem request_error_by_class
  (w : world) (url : string) (c : requests_class) (msg : string) :
  requests_get w (add_scheme url) = Raise (Requests c msg) ->
  detect_framework w url
  = (failure (request_error_text c msg), [HttpGet (add_scheme url)]).
Proof.
  intros Hget. unfold detect_framework, detect_body. rewrite Hget.
  destruct c; reflexivity.
Qed.

Lemma request_error_by_class_witness :
  detect_framework ssl_world "example.com"
  = (failure "SSL certificate verification failed. The site might not be secure.",
     [HttpGet "https://example.com"]).
Proof.
  apply (request_error_by_class ssl_world "example.com" SSLError
           "certificate verify failed").
  reflexivity.
Defined.

(** X3. A failure of the HTML parser is outside the inner [try]: it is
    reported as [Unexpected error], never as [Error parsing website
    content]; so is any exception of the request that is not a
    [RequestException]. *)
Theorem parser_failure_is_unexpected
  (w : world) (url text : string) (e : exn) :
  (requests_get w (add_scheme url) = Ret text /\ BeautifulSoup w text = Raise e)
  \/ (requests_get w (add_scheme url) = Raise e
      /\ forall c msg, e <> Requests c msg) ->
  fst (detect_framework w url) = failure ("Unexpected error: " ++ str_exn e).
Proof.
  intros [[Hget Hparse] | [Hget Hother]];
    unfold detect_framework, detect_body; cbn [fst]; rewrite Hget.
  - cbn [bind]. rewrite Hparse. reflexivity.
  - destruct e; try reflexivity. now destruct (Hother c msg).
Qed.

Lemma parser_failure_is_unexpected_witness :
  fst (detect_framework parser_failure_world "example.com")
  = failure "Unexpected error: maximum recursion depth exceeded".
Proof.
  apply (parser_failure_is_unexpected parser_failure_world "example.com"
           EmptyString (OtherException "maximum recursion depth exceeded")).
  left. split; reflexivity.
Defined.

(** X4. Whatever the network and the parser do, [detect_framework]
    returns one of two dictionaries: [compatible = False] with an
    [error], or [compatible = True] with a non-empty list of
    [frameworks]; and it sends exactly one request, to the URL with its
    scheme. *)
Theorem detect_framework_answer (w : world) (url : string) :
  ((exists msg, fst (detect_framework w url) = failure msg)
   \/ (exists names, names <> []
                     /\ fst (detect_framework w url) = success names))
  /\ snd (detect_framework w url) = [HttpGet (add_scheme url)].
Proof.
  split; [| reflexivity].
  unfold detect_framework, detect_body. cbn [fst].
  destruct (requests_get w (add_scheme url)) as [text | e].
  - cbn [bind]. destruct (BeautifulSoup w text) as [soup | e].
    + cbn [bind]. rewrite classify_matched.
      destruct (matched_builders (add_scheme url) soup).
      * destruct (matched_frameworks soup) eqn:E.
        -- right. exists ["Unknown"]. split; [discriminate | reflexivity].
        -- right. eexists. split; [| reflexivity]. discriminate.
      * left. eexists. reflexivity.
    + left. eexists. reflexivity.
  - left. destruct e as [c msg | key | msg | msg];
      try (eexists; reflexivity).
    unfold on_request_error.
    destruct (is_Timeout c); [eexists; reflexivity |].
    destruct (is_SSLError c); [eexists; reflexivity |].
    destruct (is_ConnectionError c); [eexists; reflexivity |].
    destruct (is_HTTPError c); eexists; reflexivity.
Qed.

End FetchLayer.

(** ** Beyond the claims: the request handler *)

Section Handler.

Lemma dict_mem_true_find {V : Type} (k : string) (d : dict V) :
  dict_mem k d = true -> exists v, dict_find k d = Some v.
Proof.
  induction d as [|[k' v'] d IH]; simpl; [discriminate |].
  destruct (String.eqb k k'); [intros _; now exists v' | exact IH].
Qed.

Lemma lstrip_rstrip_lstrip (s : string) :
  lstrip (rstrip (lstrip s)) = rstrip (lstrip s).
Proof.
  induction s as [|c s IH]; [reflexivity |].
  cbn [lstrip]. destruct (is_space c) eqn:E; [exact IH |].
  cbn [rstrip]. destruct (rstrip s); rewrite ?E; cbn [lstrip]; now rewrite E.
Qed.

Lemma rstrip_idempotent (s : string) : rstrip (rstrip s) = rstrip s.
Proof.
  induction s as [|c s IH]; [reflexivity |].
  cbn [rstrip]. destruct (rstrip s) as [|d r] eqn:E.
  - destruct (is_space c) eqn:Ec; [reflexivity |].
    cbn [rstrip]. now rewrite Ec.
  - change (rstrip (String c (String d r)))
      with (match rstrip (String d r) with
            | EmptyString =>
                if is_space c then EmptyString else String c EmptyString
            | String a r' => String c (String a r')
            end).
    now rewrite IH.
Qed.

Lemma strip_idempotent (s : string) : strip (strip s) = strip s.
Proof.
  unfold strip. now rewrite lstrip_rstrip_lstrip, rstrip_idempotent.
Qed.

Lemma check_site_blank_url (w : world) (fields : dict json) (s : string) :
  dict_find "url" fields = Some (JStr s) ->
  nonempty (strip s) = false ->
  check_site w (Ret (JObj fields)) = (failure "URL cannot be empty", 400, []).
Proof.
  intros Hfind Hne. unfold check_site, check_site_body.
  cbn [bind]. rewrite (truthy_with_url fields _ Hfind). cbn [negb].
  unfold has_url. cbn [bind]. rewrite (dict_mem_find _ _ _ Hfind). cbn [negb].
  unfold url_of, dict_get. rewrite Hfind. cbn [bind]. now rewrite Hne.
Qed.

Lemma nonempty_true (s : string) : nonempty s = true <-> s <> EmptyString.
Proof. destruct s; simpl; split; congruence. Qed.

(** Every request that is not dispatched is rejected: the answer is an
    error dictionary with status 400 or 500, and nothing is requested. *)
Lemma check_site_dispatched_or_rejected (w : world) (body : outcome json) :
  (exists fields s,
      body = Ret (JObj fields)
      /\ dict_find "url" fields = Some (JStr s)
      /\ nonempty (strip s) = true)
  \/ (exists msg status,
         (status = 400 \/ status = 500)
         /\ check_site w body = (failure msg, status, [])).
Proof.
  destruct body as [data | e].
  2: { right. exists ("Server error: " ++ str_exn e), 500. split; auto. }
  destruct (truthy data) eqn:T.
  2: { right. exists "No data provided", 400. split; [auto |].
       unfold check_site, check_site_body. cbn [bind]. now rewrite T. }
  destruct data as [ | b | n | s | l | fields]; try discriminate T.
  - right. eexists; exists 500. split; [auto |].
    unfold check_site, check_site_body. cbn [bind]. rewrite T. reflexivity.
  - right. eexists; exists 500. split; [auto |].
    unfold check_site, check_site_body. cbn [bind]. rewrite T. reflexivity.
  - right. unfold check_site, check_site_body. cbn [bind]. rewrite T.
    cbn [negb has_url bind].
    destruct (contains "url" s); cbn [negb];
      [eexists; exists 500 | eexists; exists 400]; (split; [auto | reflexivity]).
  - right. unfold check_site, check_site_body. cbn [bind]. rewrite T.
    cbn [negb has_url bind].
    destruct (existsb (fun v => is_str v "url") l); cbn [negb];
      [eexists; exists 500 | eexists; exists 400]; (split; [auto | reflexivity]).
  - destruct (dict_mem "url" fields) eqn:M.
    2: { right. exists "URL is required", 400. split; [auto |].
         unfold check_site, check_site_body. cbn [bind]. rewrite T.
         cbn [negb has_url bind]. now rewrite M. }
    destruct (dict_mem_true_find _ _ M) as [v Hfind].
    destruct v as [ | b | n | s | l | fs];
      try (right; exists "URL must be a string", 400; split; [auto |];
           unfold check_site, check_site_body; cbn [bind]; rewrite T;
           cbn [negb has_url bind]; rewrite M; cbn [negb];
           unfold url_of, dict_get; rewrite Hfind; reflexivity).
    destruct (nonempty (strip s)) eqn:N.
    + left. exists fields, s. repeat split; assumption.
    + right. exists "URL cannot be empty", 400. split; [auto |].
      exact (check_site_blank_url w fields s Hfind N).
Qed.

(** X5. A request is dispatched exactly when it is well formed.  When
    the body is an object whose [url] is a string that is not empty once
    stripped, the answer is that of [detect_framework] on the stripped
    URL, with status 200, and one GET is sent, to that URL with its
    scheme.  In every other case (a body that is no object, [get_json]
    raising, no [url], a [url] that is no string or is empty once
    stripped) the answer is an error dictionary with status 400 or 500 and
    no GET is sent. *)
Theorem check_site_dispatch_or_reject (w : world) (body : outcome json) :
  (forall fields s,
      body = Ret (JObj fields) ->
      dict_find "url" fields = Some (JStr s) ->
      strip s <> EmptyString ->
      check_site w body
      = (fst (detect_framework w (strip s)), 200,
         [HttpGet (add_scheme (strip s))]))
  /\ ((forall fields s,
          body = Ret (JObj fields) ->
          dict_find "url" fields = Some (JStr s) ->
          strip s = EmptyString) ->
      exists msg status,
        (status = 400 \/ status = 500)
        /\ check_site w body = (failure msg, status, [])).
Proof.
  split.
  - intros fields s -> Hfind Hne. apply nonempty_true in Hne.
    now rewrite (check_site_well_formed w fields s Hfind Hne).
  - intros Hblank.
    destruct (check_site_dispatched_or_rejected w body)
      as [[fields [s [Hb [Hfind Hne]]]] | Hrej]; [| exact Hrej].
    apply nonempty_true in Hne. now destruct (Hne (Hblank fields s Hb Hfind)).
Qed.

Lemma check_site_dispatch_or_reject_witness :
  check_site timeout_world (Ret (JObj [("url", JStr " example.com ")]))
  = (fst (detect_framework timeout_world "example.com"), 200,
     [HttpGet "https://example.com"])
  /\ exists msg status,
       (status = 400 \/ status = 500)
       /\ check_site timeout_world (Ret (JObj [("url", JNum 7)]))
          = (failure msg, status, []).
Proof.
  split.
  - destruct (check_site_dispatch_or_reject timeout_world
                (Ret (JObj [("url", JStr " example.com ")]))) as [H _].
    apply (H [("url", JStr " example.com ")] " example.com ");
      [reflexivity | reflexivity | discriminate].
  - destruct (check_site_dispatch_or_reject timeout_world
                (Ret (JObj [("url", JNum 7%Z)]))) as [_ H].
    apply H. intros fields s Hb Hfind.
    injection Hb as <-. discriminate Hfind.
Defined.

(** X6. White space around the URL does not matter: a request is
    answered as the request whose [url] is the stripped string, and
    stripping twice is stripping once. *)
Theorem padded_url_same_answer (w : world) (fields : dict json) (s : string) :
  dict_find "url" fields = Some (JStr s) ->
  strip (strip s) = strip s
  /\ check_site w (Ret (JObj fields))
     = check_site w (Ret (JObj [("url", JStr (strip s))])).
Proof.
  intros Hfind. split; [apply strip_idempotent |].
  assert (Hfind' : dict_find "url" [("url", JStr (strip s))]
                   = Some (JStr (strip s))) by reflexivity.
  destruct (nonempty (strip s)) eqn:N.
  - rewrite (check_site_well_formed w fields s Hfind N).
    rewrite (check_site_well_formed w _ (strip s) Hfind');
      rewrite strip_idempotent; [reflexivity | exact N].
  - rewrite (check_site_blank_url w fields s Hfind N).
    rewrite (check_site_blank_url w _ (strip s) Hfind');
      [reflexivity | now rewrite strip_idempotent].
Qed.

Lemma padded_url_same_answer_witness :
  check_site timeout_world
    (Ret (JObj [("id", JNum 7); ("url", JStr "  example.com  ")]))
  = check_site timeout_world (Ret example_request).
Proof.
  destruct (padded_url_same_answer timeout_world
              [("id", JNum 7%Z); ("url", JStr "  example.com  ")]
              "  example.com  " eq_refl) as [_ H].
  exact H.
Defined.

(** X7. A body that is not an object but in which [url] is found (an
    array with the element [url], a string containing it) or that cannot
    be searched at all (a number, [true]) is not rejected as bad input:
    the lookup raises and the answer is the 500 [Server error]. *)
Theorem url_found_outside_object (w : world) (data : json) :
  (forall fields, data <> JObj fields) ->
  truthy data = true ->
  has_url data <> Ret false ->
  exists msg,
    check_site w (Ret data) = (failure ("Server error: " ++ msg), 500, []).
Proof.
  intros Hobj T Hurl.
  destruct data as [ | b | n | s | l | fields]; try discriminate T.
  - eexists. unfold check_site, check_site_body. cbn [bind]. rewrite T.
    reflexivity.
  - eexists. unfold check_site, check_site_body. cbn [bind]. rewrite T.
    reflexivity.
  - unfold check_site, check_site_body. cbn [bind]. rewrite T.
    cbn [negb has_url bind] in *.
    destruct (contains "url" s); [| now destruct Hurl].
    eexists. reflexivity.
  - unfold check_site, check_site_body. cbn [bind]. rewrite T.
    cbn [negb has_url bind] in *.
    destruct (existsb (fun v => is_str v "url") l); [| now destruct Hurl].
    eexists. reflexivity.
  - now destruct (Hobj fields).
Qed.

Lemma url_found_outside_object_witness :
  exists msg,
    check_site timeout_world (Ret (JArr [JStr "url"; JStr "example.com"]))
    = (failure ("Server error: " ++ msg), 500, []).
Proof.
  apply url_found_outside_object; [discriminate | reflexivity | discriminate].
Defined.

End Handler.

(** ** Beyond the claims: the classifier *)

Section LowerCase.

Lemma is_upper_lower_ascii (c : ascii) : is_upper (lower_ascii c) = false.
Proof.
  destruct c as [[] [] [] [] [] [] [] []]; reflexivity.
Qed.

Lemma chars_app (a b : string) : chars (a ++ b) = (chars a ++ chars b)%list.
Proof.
  unfold chars. induction a as [|c a IH]; simpl; [reflexivity | now rewrite IH].
Qed.

Lemma chars_lower (s : string) (c : ascii) :
  In c (chars (lower s)) -> is_upper c = false.
Proof.
  unfold chars. induction s as [|d s IH]; simpl; [intros [] |].
  intros [<- | Hin]; [apply is_upper_lower_ascii | now apply IH].
Qed.

Lemma contains_chars (p s : string) (c : ascii) :
  contains p s = true -> In c (chars p) -> In c (chars s).
Proof.
  rewrite contains_spec. intros [a [b ->]] Hin.
  rewrite !chars_app. apply in_or_app. right. apply in_or_app. now left.
Qed.

Lemma lower_app (a b : string) : lower (a ++ b) = lower a ++ lower b.
Proof. induction a as [|c a IH]; simpl; [reflexivity | now rewrite IH]. Qed.

Lemma contains_lower (p s : string) :
  contains p s = true -> contains (lower p) (lower s) = true.
Proof.
  rewrite !contains_spec. intros [a [b ->]].
  exists (lower a), (lower b). now rewrite !lower_app.
Qed.

(** A string with a capital letter never occurs in a lower-cased text. *)
Lemma capital_not_in_lower (p s : string) (c : ascii) :
  In c (chars p) -> is_upper c = true -> contains p (lower s) = false.
Proof.
  intros Hin Hup. destruct (contains p (lower s)) eqn:E; [| reflexivity].
  pose proof (chars_lower s c (contains_chars _ _ c E Hin)) as H.
  rewrite Hup in H. discriminate H.
Qed.

End LowerCase.

Section ClassifierExtras.
Import Classifier Evidence.

Lemma generator_never_matches (name : string) (soup : Soup) :
  In name ["Squarespace"; "Shopify"; "Webflow"] ->
  contains (generator name) (page_source soup) = false.
Proof.
  intros Hin. unfold page_source. simpl in Hin.
  destruct Hin as [<- | [<- | [<- | []]]].
  - apply (capital_not_in_lower _ _ "S"%char); [simpl; tauto | reflexivity].
  - apply (capital_not_in_lower _ _ "S"%char); [simpl; tauto | reflexivity].
  - apply (capital_not_in_lower _ _ "W"%char); [simpl; tauto | reflexivity].
Qed.

(** X8. The three generator checks ([content="Squarespace"] and the like)
    never succeed, because the page source they search is lower-cased
    and they hold a capital letter.  So Squarespace is detected exactly
    when [squarespace.com] occurs in the page source, and Webflow exactly
    when [webflow.com] does. *)
Theorem generator_checks_never_succeed (url : string) (soup : Soup) :
  (forall name, In name ["Squarespace"; "Shopify"; "Webflow"] ->
     contains (generator name) (page_source soup) = false)
  /\ exists detected_builders,
       select site_builders (scan url soup) = Ret detected_builders
       /\ (In "Squarespace" detected_builders
           <-> contains "squarespace.com" (page_source soup) = true)
       /\ (In "Webflow" detected_builders
           <-> contains "webflow.com" (page_source soup) = true).
Proof.
  split; [intros name; apply generator_never_matches |].
  exists (matched_builders url soup).
  split; [apply select_matched |].
  split; rewrite matched_builders_In; unfold builder, squarespace, webflow;
    cbn [String.eqb Ascii.eqb Bool.eqb];
    rewrite generator_never_matches by (simpl; tauto);
    rewrite orb_false_r; (split; [now intros [_ H] | intros H; split;
                                    [simpl; tauto | exact H]]).
Qed.

(** The page that only names Squarespace in its generator tag passes as
    compatible. *)
Example squarespace_generator_page_passes :
  classify "https://example.com" squarespace_generator_page
  = success ["Unknown"].
Proof. reflexivity. Qed.

(** X9. The search of the page source ignores case: when the markup
    holds a builder marker in any mix of capitals and small letters, the
    site is reported as not compatible. *)
Theorem markup_detection_ignores_case (url : string) (soup : Soup) (v : string) :
  contains v (str_soup soup) = true ->
  In (lower v) builder_markers ->
  compatible_of (classify url soup) = Some false
  /\ frameworks_of (classify url soup) = None.
Proof.
  intros Hv Hin.
  assert (Hp : contains (lower v) (page_source soup) = true)
    by now apply contains_lower.
  assert (Hb : exists name, In name site_builders
                            /\ builder url soup name = true).
  { unfold builder_markers in Hin. simpl in Hin.
    destruct Hin as [E | [E | [E | [E | [E | [E | []]]]]]];
      rewrite <- E in Hp.
    - exists "Wix". split; [simpl; tauto |].
      unfold builder, wix. cbn [String.eqb Ascii.eqb Bool.eqb].
      rewrite Hp, !orb_true_r. reflexivity.
    - exists "Wix". split; [simpl; tauto |].
      unfold builder, wix. cbn [String.eqb Ascii.eqb Bool.eqb].
      rewrite Hp, !orb_true_r. reflexivity.
    - exists "Squarespace". split; [simpl; tauto |].
      unfold builder, squarespace. cbn [String.eqb Ascii.eqb Bool.eqb].
      now rewrite Hp.
    - exists "Shopify". split; [simpl; tauto |].
      unfold builder, shopify. cbn [String.eqb Ascii.eqb Bool.eqb].
      now rewrite Hp.
    - exists "Shopify". split; [simpl; tauto |].
      unfold builder, shopify. cbn [String.eqb Ascii.eqb Bool.eqb].
      rewrite Hp, !orb_true_r. reflexivity.
    - exists "Webflow". split; [simpl; tauto |].
      unfold builder, webflow. cbn [String.eqb Ascii.eqb Bool.eqb].
      now rewrite Hp. }
  destruct Hb as [name [Hn Hb]].
  rewrite (classify_builder_error url soup name);
    [split; reflexivity | now apply matched_builders_In].
Qed.

Lemma markup_detection_ignores_case_witness :
  compatible_of (classify "https://example.com" capital_shopify_page)
  = Some false
  /\ frameworks_of (classify "https://example.com" capital_shopify_page) = None.
Proof.
  apply (markup_detection_ignores_case
           "https://example.com" capital_shopify_page "CDN.SHOPIFY.COM").
  - reflexivity.
  - simpl. tauto.
Defined.

End ClassifierExtras.

Section ClassifierInvariants.
Import Classifier Evidence.

Lemma existsb_same_members {A : Type} (p : A -> bool) (l m : list A) :
  (forall x, In x l <-> In x m) -> existsb p l = existsb p m.
Proof.
  intros H. apply eq_true_iff_eq. rewrite !existsb_exists.
  split; intros [x [Hin Hp]]; exists x; (split; [now apply H | exact Hp]).
Qed.

(** X10. The verdict depends on the tags only through the set of their
    lower-cased values and on the page source only through the markers
    found in it: the order of the tags, and how often a value occurs, do
    not matter. *)
Theorem verdict_ignores_tag_order (url : string) (soup1 soup2 : Soup) :
  (forall v, In v (values soup1) <-> In v (values soup2)) ->
  same_markers soup1 soup2 ->
  classify url soup1 = classify url soup2.
Proof.
  intros Hv Hm. rewrite !classify_matched.
  assert (Hp : forall marker, In marker page_markers ->
                 contains marker (page_source soup1)
                 = contains marker (page_source soup2)) by exact Hm.
  assert (Hb : forall b, builder url soup1 b = builder url soup2 b).
  { intros b. unfold builder, wix, squarespace, shopify, webflow.
    rewrite !(Hp "static.parastorage.com"), !(Hp "wix.com"),
      !(Hp "squarespace.com"), !(Hp (generator "Squarespace")),
      !(Hp "cdn.shopify.com"), !(Hp (generator "Shopify")), !(Hp "shopify"),
      !(Hp "webflow.com"), !(Hp (generator "Webflow"))
      by (unfold page_markers; simpl; tauto).
    reflexivity. }
  assert (Hf : forall n, framework soup1 n = framework soup2 n).
  { intros n. unfold framework, react, angular, next.
    rewrite !(existsb_same_members _ _ _ Hv).
    rewrite !(Hp "data-reactroot"), !(Hp "react-root"), !(Hp "ng-"),
      !(Hp "angular"), !(Hp "__next")
      by (unfold page_markers; simpl; tauto).
    reflexivity. }
  unfold matched_builders, matched_frameworks.
  rewrite (filter_ext _ _ Hb), (filter_ext _ _ Hf). reflexivity.
Qed.

Lemma verdict_ignores_tag_order_witness :
  classify "https://example.com" react_next_page
  = classify "https://example.com" next_react_react_page.
Proof.
  apply verdict_ignores_tag_order.
  - intros v. cbv [values react_next_page next_react_react_page
                   find_all_meta find_all_script map app].
    assert (E1 : meta_content [("content", "React app")] = "react app")
      by reflexivity.
    assert (E2 : meta_content [("content", "Next")] = "next") by reflexivity.
    assert (E3 : meta_content [("content", "next")] = "next") by reflexivity.
    assert (E4 : meta_content [("content", "react app")] = "react app")
      by reflexivity.
    assert (E5 : meta_content [("content", "REACT APP")] = "react app")
      by reflexivity.
    rewrite E1, E2, E3, E4, E5. simpl. tauto.
  - intros marker Hin. unfold page_markers in Hin. simpl in Hin.
    repeat (destruct Hin as [<- | Hin]; [reflexivity |]). destruct Hin.
Defined.

(** X11. The scans never add, drop or reorder a key of the [frameworks]
    dictionary and never set the Vue flag; so the lookups of the list
    comprehensions never raise [KeyError] and the body of the inner [try]
    always returns. *)
Theorem flags_keep_their_keys (url : string) (soup : Soup) :
  map fst (scan url soup)
  = ["React"; "Vue"; "Angular"; "Next.js";
     "Wix"; "Squarespace"; "Shopify"; "Webflow"]
  /\ dict_find "Vue" (scan url soup) = Some false
  /\ (forall key, In key (map fst initial) ->
        exists flag, dict_get key (scan url soup) = Ret flag)
  /\ exists result, classify_body url soup = Ret result.
Proof.
  rewrite scan_flags. split; [reflexivity | split; [reflexivity | split]].
  - intros key Hin. simpl in Hin.
    repeat (destruct Hin as [<- | Hin]; [eexists; reflexivity |]).
    destruct Hin.
  - unfold classify_body. rewrite select_matched. cbn [bind].
    destruct (matched_builders url soup); [| eexists; reflexivity].
    destruct (detected_of (scan url soup)); eexists; reflexivity.
Qed.

Lemma contains_framed (p a s b : string) :
  contains p s = true -> contains p (a ++ s ++ b) = true.
Proof. intros H. now apply contains_app_r, contains_app_l. Qed.

Lemma orb_mono (a b a' b' : bool) :
  (a = true -> a' = true) -> (b = true -> b' = true) ->
  a || b = true -> a' || b' = true.
Proof. destruct a, b; intros Ha Hb H; try discriminate H;
  rewrite ?Ha, ?Hb by reflexivity; rewrite ?orb_true_r; reflexivity. Qed.

(** X12. Markup added around a page never clears a builder verdict: when
    the markup of a second page contains that of the first, every
    builder detected on the first is detected on the second, whatever
    the tags of the second are, and a page that is not compatible stays
    so. *)
Theorem builder_verdict_survives_framing
  (url : string) (soup1 soup2 : Soup) (before after : string) :
  str_soup soup2 = before ++ str_soup soup1 ++ after ->
  (forall name, In name (matched_builders url soup1) ->
                In name (matched_builders url soup2))
  /\ (compatible_of (classify url soup1) = Some false ->
      compatible_of (classify url soup2) = Some false).
Proof.
  intros Hmarkup.
  assert (Hp : forall p, contains p (page_source soup1) = true ->
                         contains p (page_source soup2) = true).
  { intros p H. unfold page_source. rewrite Hmarkup, !lower_app.
    now apply contains_framed. }
  assert (Hb : forall name, builder url soup1 name = true ->
                            builder url soup2 name = true).
  { intros name. unfold builder, wix, squarespace, shopify, webflow.
    destruct (String.eqb name "Wix");
      [| destruct (String.eqb name "Squarespace");
         [| destruct (String.eqb name "Shopify");
            [| destruct (String.eqb name "Webflow")]]];
      try (intros H; exact H);
      repeat (apply orb_mono; [| apply Hp]); try apply Hp; auto. }
  assert (Hin : forall name, In name (matched_builders url soup1) ->
                             In name (matched_builders url soup2)).
  { intros name. rewrite !matched_builders_In. intros [H1 H2]. split; auto. }
  split; [exact Hin |].
  rewrite (classify_matched url soup1).
  destruct (matched_builders url soup1) as [|name l] eqn:E.
  - destruct (matched_frameworks soup1); discriminate.
  - intros _. rewrite (classify_builder_error url soup2 name); [reflexivity |].
    apply Hin. now left.
Qed.

Lemma builder_verdict_survives_framing_witness :
  compatible_of (classify "https://shop.example" framed_shopify_page)
  = Some false.
Proof.
  destruct (builder_verdict_survives_framing
              "https://shop.example" shopify_react_page framed_shopify_page
              "<html><body>" "<script src=app.js></script></body></html>"
              eq_refl) as [_ H].
  apply H. reflexivity.
Defined.

End ClassifierInvariants.

(** ** Beyond the claims: the search for the site of a product *)

Section ProductSearch.

Lemma existsb_false_all {A : Type} (p : A -> bool) (l : list A) :
  existsb p l = false -> forall x, In x l -> p x = false.
Proof.
  induction l as [|y l IH]; simpl; [intros _ x [] |].
  intros H x [<- | Hin]; apply orb_false_iff in H; destruct H as [Hy Hl];
    [exact Hy | now apply IH].
Qed.

Lemma is_valid_product_url_inv (w : search_world) (v : json) :
  is_valid_product_url w v = true ->
  truthy v = true
  /\ exists s netloc,
       v = JStr s
       /\ urlparse_netloc w s = Ret netloc
       /\ existsb (fun skip => contains skip (lower netloc)) skip_domains = false
       /\ existsb (fun term => contains term (lower s)) skip_terms = false.
Proof.
  unfold is_valid_product_url.
  destruct (truthy v) eqn:T; cbn [negb]; [| discriminate].
  destruct v as [ | b | n | s | l | fields]; try discriminate.
  destruct (urlparse_netloc w s) as [netloc | e] eqn:N; [| discriminate].
  cbv zeta.
  destruct (existsb (fun skip => contains skip (lower netloc)) skip_domains)
    eqn:D; [discriminate |].
  destruct (existsb (fun term => contains term (lower s)) skip_terms)
    eqn:U; [discriminate |].
  intros _. split; [reflexivity |]. exists s, netloc. repeat split; assumption.
Qed.

Lemma first_valid_topic_sound (w : search_world) (topics : list json) (v : json) :
  first_valid_topic w topics = Ret (Some v) -> is_valid_product_url w v = true.
Proof.
  induction topics as [|topic topics IH]; cbn [first_valid_topic];
    [discriminate |].
  destruct topic as [ | b | n | s | l | fields]; cbn [py_get bind];
    try discriminate.
  destruct (truthy _ && is_valid_product_url w _) eqn:E; [| exact IH].
  intros [= <-]. now apply andb_true_iff in E.
Qed.

Lemma search_body_sound (w : search_world) (product_name : string) (v : json) :
  search_body w product_name = Ret (Some v) ->
  is_valid_product_url w v = true.
Proof.
  unfold search_body.
  destruct (duckduckgo_get w (search_url product_name))
    as [[status_code body] | e]; cbn [bind]; [| discriminate].
  destruct (Nat.eqb status_code 200); [| discriminate].
  destruct body as [results | e]; cbn [bind]; [| discriminate].
  destruct results as [ | b | n | s | l | fields]; cbn [py_get bind];
    try discriminate.
  destruct (truthy _ && is_valid_product_url w _) eqn:Ea.
  { intros [= <-]. now apply andb_true_iff in Ea. }
  destruct (py_iter _) as [topics | e]; cbn [bind]; [| discriminate].
  destruct (first_valid_topic w topics) as [[url |] | e] eqn:Ef;
    cbn [py_get bind]; try discriminate.
  { intros [= <-]. exact (first_valid_topic_sound w topics url Ef). }
  match goal with
  | |- context [if ?c then _ else _] => destruct c eqn:Er
  end; [| discriminate].
  intros [= <-]. now apply andb_true_iff in Er.
Qed.

Lemma search_product_website_sound
  (w : search_world) (product_name : string) (v : json) :
  search_product_website w product_name = Some v ->
  is_valid_product_url w v = true.
Proof.
  unfold search_product_website.
  destruct (search_body w product_name) as [r | e] eqn:E; [| discriminate].
  intros ->. exact (search_body_sound w product_name v E).
Qed.

(** X13. Whatever DuckDuckGo answers, a URL returned by
    [search_product_website] is a non-empty string that
    [is_valid_product_url] accepts: its domain contains none of the
    twelve skipped domains, and the URL contains none of the four
    skipped terms, in any mix of capitals and small letters. *)
Theorem search_returns_valid_url
  (w : search_world) (product_name : string) (v : json) :
  search_product_website w product_name = Some v ->
  exists s netloc,
    v = JStr s
    /\ s <> EmptyString
    /\ urlparse_netloc w s = Ret netloc
    /\ (forall skip, In skip skip_domains ->
          contains skip (lower netloc) = false)
    /\ (forall t, In (lower t) skip_terms -> contains t s = false).
Proof.
  intros H. apply search_product_website_sound in H.
  destruct (is_valid_product_url_inv w v H) as [T [s [netloc [-> [N [D U]]]]]].
  exists s, netloc. repeat split; try assumption.
  - intros ->. discriminate T.
  - intros skip Hin.
    exact (existsb_false_all _ _ D skip Hin).
  - intros t Hin. destruct (contains t s) eqn:E; [| reflexivity].
    apply contains_lower in E.
    rewrite (existsb_false_all _ _ U (lower t) Hin) in E. discriminate E.
Qed.

Lemma search_returns_valid_url_witness :
  exists s netloc,
    JStr "https://acme.dev/" = JStr s
    /\ s <> EmptyString
    /\ urlparse_netloc sample_search_world s = Ret netloc
    /\ (forall skip, In skip skip_domains ->
          contains skip (lower netloc) = false)
    /\ (forall t, In (lower t) skip_terms -> contains t s = false).
Proof.
  apply (search_returns_valid_url sample_search_world "acme").
  reflexivity.
Defined.

(** X14. [get_product_website] is the search on the last piece of the
    post URL: the test [if website_url] never discards a result, since a
    result of the search is a non-empty string. *)
Theorem get_product_website_is_search
  (w : search_world) (product_post_url : string) :
  get_product_website w product_post_url
  = search_product_website w (last_piece "/" product_post_url).
Proof.
  unfold get_product_website.
  destruct (search_product_website w (last_piece "/" product_post_url))
    as [v |] eqn:E; [| reflexivity].
  apply search_product_website_sound, is_valid_product_url_inv in E.
  destruct E as [T _]. now rewrite T.
Qed.

(** X15. [is_valid_product_url] rejects by substring and without regard
    to case: a URL is refused as soon as one of the skipped terms occurs
    anywhere in it, or one of the skipped domains anywhere in its domain
    (so [x.com] refuses every domain that ends in [x.com]). *)
Theorem url_rejected_by_substring (w : search_world) (s : string) :
  (exists t, In (lower t) skip_terms /\ contains t s = true)
  \/ (exists netloc t,
         urlparse_netloc w s = Ret netloc
         /\ In (lower t) skip_domains /\ contains t netloc = true) ->
  is_valid_product_url w (JStr s) = false.
Proof.
  intros H. unfold is_valid_product_url.
  destruct (truthy (JStr s)); cbn [negb]; [| reflexivity].
  destruct (urlparse_netloc w s) as [netloc | e] eqn:N; [| reflexivity].
  cbv zeta.
  destruct (existsb (fun skip => contains skip (lower netloc)) skip_domains)
    eqn:D; [reflexivity |].
  destruct (existsb (fun term => contains term (lower s)) skip_terms)
    eqn:U; [reflexivity |].
  destruct H as [[t [Hin Ht]] | [netloc' [t [N' [Hin Ht]]]]].
  - apply contains_lower in Ht.
    rewrite (existsb_false_all _ _ U (lower t) Hin) in Ht. discriminate Ht.
  - injection N' as <-. apply contains_lower in Ht.
    rewrite (existsb_false_all _ _ D (lower t) Hin) in Ht. discriminate Ht.
Qed.

Lemma url_rejected_by_substring_witness :
  is_valid_product_url sample_search_world
    (JStr "https://www.DropBox.com/pricing") = false.
Proof.
  apply url_rejected_by_substring. right.
  exists "www.DropBox.com", "x.com". repeat split.
  simpl. tauto.
Defined.

End ProductSearch.

(** ** Beyond the claims: from a product name to the search query *)

Section PostUrl.

Lemma last_app_nonempty {A : Type} (l m : list A) (d : A) :
  m <> [] -> last (l ++ m)%list d = last m d.
Proof.
  intros Hm. induction l as [|x l IH]; [reflexivity |].
  cbn [app]. destruct (l ++ m)%list eqn:E; [| exact IH].
  destruct l; [now destruct Hm | discriminate E].
Qed.

Lemma split_nonempty (sep : ascii) (s : string) :
  exists piece pieces, split sep s = piece :: pieces.
Proof.
  destruct s as [|c s]; cbn [split]; [now eexists; eexists |].
  destruct (Ascii.eqb c sep); [now eexists; eexists |].
  destruct (split sep s); now eexists; eexists.
Qed.

(** [(a + sep + b).split(sep) == a.split(sep) + b.split(sep)] *)
Lemma split_app_sep (sep : ascii) (a b : string) :
  split sep (a ++ String sep b) = (split sep a ++ split sep b)%list.
Proof.
  induction a as [|c a IH].
  - cbn [append split app]. now rewrite Ascii.eqb_refl.
  - cbn [append split]. rewrite IH.
    destruct (Ascii.eqb c sep); [reflexivity |].
    destruct (split_nonempty sep a) as [p [ps ->]]. reflexivity.
Qed.

Lemma split_no_sep (sep : ascii) (s : string) :
  ~ In sep (chars s) -> split sep s = [s].
Proof.
  unfold chars. induction s as [|c s IH]; [reflexivity |].
  cbn [list_ascii_of_string split]. intros H.
  destruct (Ascii.eqb_spec c sep) as [-> | _]; [destruct H; now left |].
  rewrite IH; [reflexivity |]. intros Hin. apply H. now right.
Qed.

Lemma last_piece_after_sep (sep : ascii) (a b : string) :
  ~ In sep (chars b) -> last_piece sep (a ++ String sep b) = b.
Proof.
  intros H. unfold last_piece.
  rewrite split_app_sep, (split_no_sep sep b H).
  now rewrite last_app_nonempty by discriminate.
Qed.

Lemma chars_replace (old new c : ascii) (s : string) :
  In c (chars (replace old new s)) -> c = new \/ In c (chars s).
Proof.
  unfold chars. induction s as [|d s IH]; [intros [] |].
  cbn [replace list_ascii_of_string In].
  intros [<- | Hin].
  - destruct (Ascii.eqb d old); [now left | right; now left].
  - destruct (IH Hin); [now left | right; now right].
Qed.

Lemma lower_ascii_slash (d : ascii) : lower_ascii d = "/"%char -> d = "/"%char.
Proof.
  destruct d as [[] [] [] [] [] [] [] []]; vm_compute; intros H;
    first [exact H | discriminate H].
Qed.

Lemma lower_ascii_hyphen (d : ascii) : lower_ascii d = "-"%char -> d = "-"%char.
Proof.
  destruct d as [[] [] [] [] [] [] [] []]; vm_compute; intros H;
    first [exact H | discriminate H].
Qed.

Lemma chars_lower_inv (c : ascii) (s : string) :
  In c (chars (lower s)) -> exists d, In d (chars s) /\ lower_ascii d = c.
Proof.
  unfold chars. induction s as [|d s IH]; [intros [] |].
  cbn [lower list_ascii_of_string In]. intros [H | Hin].
  - exists d. split; [now left | exact H].
  - destruct (IH Hin) as [d' [Hd' E]]. exists d'. split; [now right | exact E].
Qed.

Lemma replace_back (t : string) :
  ~ In "-"%char (chars t) -> replace "-" " " (replace " " "-" t) = t.
Proof.
  unfold chars. induction t as [|c t IH]; [reflexivity |].
  cbn [replace list_ascii_of_string In]. intros H.
  rewrite IH by (intros Hin; apply H; now right). f_equal.
  destruct (Ascii.eqb_spec c " ") as [-> | Hs]; [reflexivity |].
  destruct (Ascii.eqb_spec c "-") as [-> | _]; [| reflexivity].
  destruct H. now left.
Qed.

Lemma is_space_lower_ascii (c : ascii) : is_space (lower_ascii c) = is_space c.
Proof. destruct c as [[] [] [] [] [] [] [] []]; reflexivity. Qed.

Lemma lstrip_lower (s : string) : lstrip (lower s) = lower (lstrip s).
Proof.
  induction s as [|c s IH]; [reflexivity |].
  cbn [lower lstrip]. rewrite is_space_lower_ascii.
  destruct (is_space c); [exact IH | reflexivity].
Qed.

Lemma rstrip_lower (s : string) : rstrip (lower s) = lower (rstrip s).
Proof.
  induction s as [|c s IH]; [reflexivity |].
  cbn [lower rstrip]. rewrite IH, is_space_lower_ascii.
  destruct (rstrip s); cbn [lower]; [destruct (is_space c) |]; reflexivity.
Qed.

Lemma strip_lower (s : string) : strip (lower s) = lower (strip s).
Proof. unfold strip. now rewrite lstrip_lower, rstrip_lower. Qed.

(** X16. From the text of a product button to the search query.  For a
    product name without a slash, the last piece of the post URL built
    from the name (line 107) is the name in small letters with hyphens for
    spaces; the same holds for a link [/posts/slug] (line 97).  When the
    name has no hyphen and no white space around it, the query of
    [search_product_website] is then built on the name in small letters:
    only the capitals are lost on the way. *)
Theorem name_survives_post_url (product_name : string) :
  ~ In "/"%char (chars product_name) ->
  last_piece "/" (product_url_of_name product_name)
  = replace " " "-" (lower product_name)
  /\ last_piece "/"
       (product_url_of_href
          ("/posts/" ++ replace " " "-" (lower product_name)))
     = replace " " "-" (lower product_name)
  /\ (~ In "-"%char (chars product_name) ->
      strip product_name = product_name ->
      search_query (last_piece "/" (product_url_of_name product_name))
      = "what is " ++ lower product_name
        ++ " on product hunt -producthunt -twitter -facebook").
Proof.
  intros Hslash.
  assert (Hslug : ~ In "/"%char (chars (replace " " "-" (lower product_name)))).
  { intros Hin. apply chars_replace in Hin. destruct Hin as [H | Hin];
      [discriminate H |].
    apply chars_lower_inv in Hin. destruct Hin as [d [Hd E]].
    apply lower_ascii_slash in E. subst d. now apply Hslash. }
  assert (E1 : last_piece "/" (product_url_of_name product_name)
               = replace " " "-" (lower product_name)).
  { change (product_url_of_name product_name)
      with ("https://www.producthunt.com/posts"
            ++ String "/" (replace " " "-" (lower product_name))).
    now apply last_piece_after_sep. }
  split; [exact E1 | split].
  - change (product_url_of_href
              ("/posts/" ++ replace " " "-" (lower product_name)))
      with ("https://www.producthunt.com/posts"
            ++ String "/" (replace " " "-" (lower product_name))).
    now apply last_piece_after_sep.
  - intros Hhyphen Hstrip. unfold search_query. rewrite E1.
    assert (Hl : ~ In "-"%char (chars (lower product_name))).
    { intros Hin. apply chars_lower_inv in Hin. destruct Hin as [d [Hd E]].
      apply lower_ascii_hyphen in E. subst d. now apply Hhyphen. }
    cbv zeta. rewrite (replace_back _ Hl), strip_lower, Hstrip. reflexivity.
Qed.

Lemma name_survives_post_url_witness :
  last_piece "/" (product_url_of_name "My Cool App") = "my-cool-app"
  /\ search_query (last_piece "/" (product_url_of_name "My Cool App"))
     = "what is my cool app on product hunt -producthunt -twitter -facebook".
Proof.
  assert (Hslash : ~ In "/"%char (chars "My Cool App")).
  { cbv. intros H.
    repeat (destruct H as [H | H]; [discriminate H |]). exact H. }
  destruct (name_survives_post_url "My Cool App" Hslash) as [E1 [_ E3]].
  split; [exact E1 |].
  apply E3; [| reflexivity].
  cbv. intros H.
  repeat (destruct H as [H | H]; [discriminate H |]). exact H.
Defined.

End PostUrl.
